(** * btrade: Yahoo feeds (backtrader/feeds/base.py, backtrader/feeds/yahoo.py)

    A shallow embedding of the bar model, the Yahoo CSV line parser, the
    Yahoo chart-API normaliser and the sequential feed cursor, together with
    the properties of the specification that concern them.

    Python floats are IEEE binary64 numbers: they are modelled by Rocq's
    primitive floats, so that every arithmetic step of the parser evaluates
    to the very bits the interpreter produces.  Text is ASCII. *)

From Stdlib Require Import ZArith Ascii String List Bool Lia Floats Sorted.
From stdpp Require Import gmap strings list fin_maps.

Set Warnings "-register-all".
Local Open Scope Z_scope.

(* ===================================================================== *)
(** * The Python run time the feeds rely on *)
(* ===================================================================== *)

Module Py.

(** Exceptions the feeds can raise (the message is not modelled). *)
Inductive exn : Set :=
  | ValueError | TypeError | IndexError | KeyError
  | AttributeError | ZeroDivisionError | OverflowError | OSError.

(** The result of evaluating an expression: a value or a raised exception. *)
Inductive result (A : Type) : Type :=
  | Ok (a : A)
  | Raise (e : exn).
Arguments Ok {A} a.
Arguments Raise {A} e.

Definition rbind {A B} (r : result A) (k : A -> result B) : result B :=
  match r with
  | Ok a => k a
  | Raise e => Raise e
  end.

Definition is_Ok {A} (r : result A) : bool :=
  match r with Ok _ => true | Raise _ => false end.

#[global] Instance result_ret : MRet result := fun A a => Ok a.
#[global] Instance result_bind : MBind result := fun A B k r => rbind r k.

(** ** Characters *)

(** [Py_ISSPACE]: space, and the controls from tab to carriage return. *)
Definition is_space (c : ascii) : bool :=
  let n := N_of_ascii c in (n =? 32)%N || ((9 <=? n)%N && (n <=? 13)%N).

Definition is_digit (c : ascii) : bool :=
  let n := N_of_ascii c in (48 <=? n)%N && (n <=? 57)%N.

Definition digit_val (c : ascii) : Z := Z.of_N (N_of_ascii c) - 48.

Definition is_underscore (c : ascii) : bool := (N_of_ascii c =? 95)%N.

(** ASCII lower-casing of a letter, as [Py_TOLOWER]. *)
Definition to_lower (c : ascii) : ascii :=
  let n := N_of_ascii c in
  if (65 <=? n)%N && (n <=? 90)%N then ascii_of_N (n + 32) else c.

Fixpoint lstrip (s : list ascii) : list ascii :=
  match s with
  | c :: s' => if is_space c then lstrip s' else s
  | [] => []
  end.

Definition strip (s : list ascii) : list ascii :=
  rev (lstrip (rev (lstrip s))).

(** Split a leading run of decimal digits off. *)
Fixpoint take_digits (s : list ascii) : list ascii * list ascii :=
  match s with
  | c :: s' =>
      if is_digit c
      then let (ds, r) := take_digits s' in (c :: ds, r)
      else ([], s)
  | [] => ([], [])
  end.

Definition digits_to_Z (ds : list ascii) : Z :=
  fold_left (fun acc c => 10 * acc + digit_val c) ds 0.

(** An optional sign: [true] for a minus. *)
Definition take_sign (s : list ascii) : bool * list ascii :=
  match s with
  | "+"%char :: r => (false, r)
  | "-"%char :: r => (true, r)
  | _ => (false, s)
  end.

(** Digit grouping: an underscore is legal only between two digits.  The
    scan keeps the previous character, as the interpreter's does, and
    returns the text with the underscores removed. *)
Fixpoint drop_underscores (prev : option ascii) (s : list ascii)
  : option (list ascii) :=
  let prev_digit := match prev with Some p => is_digit p | None => false end in
  let prev_under := match prev with Some p => is_underscore p | None => false end in
  match s with
  | [] => if prev_under then None else Some []
  | c :: s' =>
      if is_underscore c
      then if prev_digit then drop_underscores (Some c) s' else None
      else if prev_under && negb (is_digit c) then None
      else option_map (cons c) (drop_underscores (Some c) s')
  end.

(** ** [int(str)], base ten *)

Definition int_of_string (s : string) : result Z :=
  let (neg, body) := take_sign (strip (list_ascii_of_string s)) in
  match drop_underscores None body with
  | None => Raise ValueError
  | Some body' =>
      let (ds, r) := take_digits body' in
      match ds, r with
      | _ :: _, [] => Ok (if neg then - digits_to_Z ds else digits_to_Z ds)
      | _, _ => Raise ValueError
      end
  end.

(** ** Decimal to binary64, correctly rounded *)

(** The integer nearest to [num / den], ties to the even one ([0 < den]). *)
Definition round_half_even (num den : Z) : Z :=
  let q := num / den in
  let r := num mod den in
  if (den <? 2 * r) || ((den =? 2 * r) && Z.odd q) then q + 1 else q.

(** The binary64 number nearest to [n / d] (ties to even), for [0 <= n] and
    [0 < d]; values past the largest finite float become an infinity. *)
Definition nearest_float (neg : bool) (n d : Z) : float :=
  if n =? 0 then (if neg then neg_zero else zero)
  else
    let e := Z.log2 n - Z.log2 d in
    (* fl = floor (log2 (n / d)) *)
    let fl := if (if 0 <=? e then d * 2 ^ e <=? n else d <=? n * 2 ^ (- e))
              then e else e - 1 in
    (* exponent of the last mantissa bit, bounded below by the subnormals *)
    let ex := Z.max (fl - 52) (-1074) in
    let num := if 0 <=? ex then n else n * 2 ^ (- ex) in
    let den := if 0 <=? ex then d * 2 ^ ex else d in
    if 1024 <=? fl then (if neg then neg_infinity else infinity)
    else match round_half_even num den with
         | Zpos m => SF2Prim (S754_finite neg m ex)
         | _ => if neg then neg_zero else zero
         end.

(** ** [float(str)] *)

Definition float_of_string (s : string) : result float :=
  match drop_underscores None (strip (list_ascii_of_string s)) with
  | None => Raise ValueError
  | Some body =>
      let (neg, num) := take_sign body in
      let word := string_of_list_ascii (map to_lower num) in
      if (word =? "inf")%string || (word =? "infinity")%string
      then Ok (if neg then neg_infinity else infinity)
      else if (word =? "nan")%string then Ok nan
      else
        let (ip, r1) := take_digits num in
        let (fp, r2) := match r1 with
                        | "."%char :: r => take_digits r
                        | _ => ([], r1)
                        end in
        let (ex, r3) :=
          match r2 with
          | c :: r =>
              if (to_lower c =? "e")%char
              then let (eneg, r') := take_sign r in
                   let (ed, r'') := take_digits r' in
                   match ed with
                   | [] => (0, r2)
                   | _ => ((if eneg then - digits_to_Z ed else digits_to_Z ed), r'')
                   end
              else (0, r2)
          | [] => (0, r2)
          end in
        match ip ++ fp, r3 with
        | _ :: _, [] =>
            let m := digits_to_Z (ip ++ fp) in
            let e10 := ex - Z.of_nat (length fp) in
            Ok (if 0 <=? e10
                then nearest_float neg (m * 10 ^ e10) 1
                else nearest_float neg m (10 ^ (- e10)))
        | _, _ => Raise ValueError
        end
  end.

(** ** Float arithmetic *)

(** [a / b]: division by a zero of either sign raises. *)
Definition truediv (a b : float) : result float :=
  if (b =? 0)%float then Raise ZeroDivisionError else Ok (a / b)%float.

(** The exact value of a finite float: a numerator and the exponent of the
    power of two it is multiplied by. *)
Definition dyadic (x : float) : Z * Z :=
  match Prim2SF x with
  | S754_finite neg m e => ((if neg then Zneg m else Zpos m), e)
  | _ => (0, 0)
  end.

(** [math.fsum] on finite floats: the exact sum, rounded once. *)
Definition fsum (xs : list float) : float :=
  let emin := fold_right (fun x acc => Z.min (snd (dyadic x)) acc) 0 xs in
  let total :=
    fold_right (fun x acc => fst (dyadic x) * 2 ^ (snd (dyadic x) - emin) + acc)
               0 xs in
  nearest_float (total <? 0) (Z.abs total) (2 ^ (- emin)).

(** [float(n)] for an integer within the range of the doubles. *)
Definition float_of_Z (n : Z) : float := nearest_float (n <? 0) (Z.abs n) 1.

(** [round(x, ndigits)] on a float with [ndigits] given: the exact value of
    [x] is rounded half to even at [ndigits] decimals and the decimal result
    is converted back to the nearest float.  Zeros, infinities and nans are
    returned as they are. *)
Definition round (x : float) (ndigits : Z) : result float :=
  match Prim2SF x with
  | S754_finite neg m e =>
      if 323 <? ndigits then Ok x
      else if ndigits <? -308 then Ok (0 * x)%float
      else
        let num := Zpos m * 2 ^ Z.max e 0 * 10 ^ Z.max ndigits 0 in
        let den := 2 ^ Z.max (- e) 0 * 10 ^ Z.max (- ndigits) 0 in
        let k := round_half_even num den in
        let y := nearest_float neg (k * 10 ^ Z.max (- ndigits) 0)
                               (10 ^ Z.max ndigits 0) in
        if is_infinity y then Raise OverflowError else Ok y
  | _ => Ok x
  end.

(** An argument used as an integer: a [bool] counts as 0 or 1
    ([operator.index]). *)
Inductive pyint : Set :=
  | PBool (b : bool)
  | PInt (z : Z).

Definition index (n : pyint) : Z :=
  match n with
  | PBool b => if b then 1 else 0
  | PInt z => z
  end.

(** ** Objects *)

(** The values a decoded JSON document is made of; a [dict] keeps its items
    in insertion order and has string keys. *)
Inductive value : Type :=
  | VNone
  | VBool (b : bool)
  | VInt (z : Z)
  | VFloat (f : float)
  | VStr (s : string)
  | VList (l : list value)
  | VDict (d : list (string * value)).

(** Truth value of an object. *)
Definition truthy (v : value) : bool :=
  match v with
  | VNone => false
  | VBool b => b
  | VInt z => negb (z =? 0)
  | VFloat f => negb (f =? 0)%float
  | VStr s => negb (s =? "")%string
  | VList l => match l with [] => false | _ => true end
  | VDict d => match d with [] => false | _ => true end
  end.

(** [a or b] *)
Definition or_ (a b : value) : value := if truthy a then a else b.

Definition is_None (v : value) : bool :=
  match v with VNone => true | _ => false end.

(** The C double of an object used as a real number, as the item
    assignment of an [array('d')] takes it: a [float] as it is, an [int]
    (a [bool] is one) as the nearest double, one too large for a double
    being refused, and anything else a type error. *)
Definition as_double (v : value) : result float :=
  match v with
  | VFloat x => Ok x
  | VInt z =>
      let x := nearest_float (z <? 0) (Z.abs z) 1 in
      if is_infinity x then Raise OverflowError else Ok x
  | VBool b => Ok (if b then 1 else 0)%float
  | _ => Raise TypeError
  end.

(** Item lookup in a [dict], by key. *)
Fixpoint dict_find (k : string) (d : list (string * value)) : option value :=
  match d with
  | [] => None
  | (k', v) :: d' => if (k =? k')%string then Some v else dict_find k d'
  end.

(** [d.get(k, default)]: only a [dict] has the method. *)
Definition get (d : value) (k : string) (dflt : value) : result value :=
  match d with
  | VDict items => Ok (match dict_find k items with Some v => v | None => dflt end)
  | _ => Raise AttributeError
  end.

(** [v[k]] for a string key [k]. *)
Definition getitem_key (v : value) (k : string) : result value :=
  match v with
  | VDict items =>
      match dict_find k items with
      | Some x => Ok x
      | None => Raise KeyError
      end
  | _ => Raise TypeError
  end.

(** [l[i]] on a list, negative indices counting from the end. *)
Definition list_getitem {A} (l : list A) (i : Z) : result A :=
  let n := Z.of_nat (length l) in
  let j := if i <? 0 then i + n else i in
  if j <? 0 then Raise IndexError
  else match nth_error l (Z.to_nat j) with
       | Some x => Ok x
       | None => Raise IndexError
       end.

(** [v[i]] for an integer index [i]. *)
Definition getitem_index (v : value) (i : Z) : result value :=
  match v with
  | VList l => list_getitem l i
  | VStr s =>
      c ← list_getitem (list_ascii_of_string s) i; Ok (VStr (String c ""))
  | VDict _ => Raise KeyError
  | _ => Raise TypeError
  end.

(** [k in v] for a string [k]. *)
Definition contains (v : value) (k : string) : result bool :=
  match v with
  | VDict items => Ok (match dict_find k items with Some _ => true | None => false end)
  | VList l =>
      Ok (existsb (fun x => match x with VStr t => (k =? t)%string | _ => false end) l)
  | VStr t => Ok (match String.index 0 k t with Some _ => true | None => false end)
  | _ => Raise TypeError
  end.

(** The items [for ... in v] runs through. *)
Definition iter (v : value) : result (list value) :=
  match v with
  | VList l => Ok l
  | VStr s => Ok (map (fun c => VStr (String c "")) (list_ascii_of_string s))
  | VDict items => Ok (map (fun kv => VStr (fst kv)) items)
  | _ => Raise TypeError
  end.

(** [s[a:b]] on text, for [0 <= a <= b]. *)
Definition slice (s : string) (a b : nat) : string := String.substring a (b - a) s.

(** ** Calendar *)

Record date : Set := { year : Z; month : Z; day : Z }.
Record time : Set := { hour : Z; minute : Z; second : Z; microsecond : Z }.
Record datetime : Set := { dt_date : date; dt_time : time }.

Definition is_leap (y : Z) : bool :=
  (y mod 4 =? 0) && (negb (y mod 100 =? 0) || (y mod 400 =? 0)).

Definition days_in_month (y m : Z) : Z :=
  if m =? 2 then (if is_leap y then 29 else 28)
  else if (m =? 4) || (m =? 6) || (m =? 9) || (m =? 11) then 30
  else 31.

(** [date(y, m, d)] *)
Definition date_new (y m d : Z) : result date :=
  if (1 <=? y) && (y <=? 9999) && (1 <=? m) && (m <=? 12)
     && (1 <=? d) && (d <=? days_in_month y m)
  then Ok {| year := y; month := m; day := d |}
  else Raise ValueError.

(** [datetime.combine(d, t)] *)
Definition combine (d : date) (t : time) : datetime :=
  {| dt_date := d; dt_time := t |}.

(** The fields of a [datetime], most significant first; naive datetimes
    compare as these tuples do. *)
Definition datetime_key (x : datetime) : list Z :=
  [year (dt_date x); month (dt_date x); day (dt_date x);
   hour (dt_time x); minute (dt_time x); second (dt_time x);
   microsecond (dt_time x)].

Fixpoint lex_ltb (a b : list Z) : bool :=
  match a, b with
  | x :: a', y :: b' => (x <? y) || ((x =? y) && lex_ltb a' b')
  | [], _ :: _ => true
  | _, [] => false
  end.

(** [x < y] on naive datetimes. *)
Definition datetime_ltb (x y : datetime) : bool :=
  lex_ltb (datetime_key x) (datetime_key y).

(** The [width] low-order decimal digits of [n], zero filled: [%0<width>d]
    for a number that fits. *)
Fixpoint zfill (width : nat) (n : Z) : string :=
  match width with
  | O => ""
  | S w => zfill w (n / 10) ++ String (ascii_of_N (48 + Z.to_N (n mod 10))) ""
  end.

(** [str(x)] for a naive datetime. *)
Definition str_datetime (x : datetime) : string :=
  let d := dt_date x in
  let t := dt_time x in
  zfill 4 (year d) ++ "-" ++ zfill 2 (month d) ++ "-" ++ zfill 2 (day d)
  ++ " " ++ zfill 2 (hour t) ++ ":" ++ zfill 2 (minute t) ++ ":"
  ++ zfill 2 (second t)
  ++ (if microsecond t =? 0 then "" else "." ++ zfill 6 (microsecond t)).

(** ** State and exceptions *)

(** A command over a state [S]: it ends with a value or an exception, and
    with the state as it was left. *)
Definition M (S A : Type) : Type := S -> result A * S.

#[global] Instance M_ret {S} : MRet (M S) := fun A a s => (Ok a, s).
#[global] Instance M_bind {S} : MBind (M S) := fun A B k c s =>
  match c s with
  | (Ok a, s') => k a s'
  | (Raise e, s') => (Raise e, s')
  end.

(** A pure evaluation inside a command. *)
Definition lift {S A} (r : result A) : M S A := fun s => (r, s).

Definition modify {S} (g : S -> S) : M S unit := fun s => (Ok tt, g s).

(** The state itself: reading [self]. *)
Definition self_ {S} : M S S := fun s => (Ok s, s).

(** [print(line)], the state being what was written to standard output. *)
Definition print (line : string) : M (list string) unit :=
  modify (fun out => out ++ [line]).

(** [[g(x) for x in l]]: the items in turn, up to the first that raises. *)
Fixpoint comprehension {A B} (g : A -> result B) (l : list A)
  : result (list B) :=
  match l with
  | [] => Ok []
  | x :: l' => y ← g x; ys ← comprehension g l'; Ok (y :: ys)
  end.

End Py.

(** ** [io.StringIO(newline=None)] *)

Module StringIO.

Definition LF : ascii := "010"%char.
Definition CR : ascii := "013"%char.

(** What [write(s)] stores: every ["\r\n"] and every other ["\r"] of [s]
    becomes ["\n"], each written string being translated on its own. *)
Fixpoint translate (s : string) : string :=
  match s with
  | EmptyString => EmptyString
  | String c s' =>
      if (c =? CR)%char then
        match s' with
        | String c' s'' =>
            if (c' =? LF)%char then String LF (translate s'')
            else String LF (translate s')
        | EmptyString => String LF EmptyString
        end
      else String c (translate s')
  end.

(** The text held after [writelines(lines)] on a fresh object. *)
Definition writelines (lines : list string) : string :=
  fold_right (fun line text => (translate line ++ text)%string) EmptyString lines.

(** The lines iteration yields from position 0: each runs up to and
    including its ["\n"], the last one up to the end of the text. *)
Fixpoint readlines (text : string) : list string :=
  match text with
  | EmptyString => []
  | String c text' =>
      if (c =? LF)%char then String c EmptyString :: readlines text'
      else match readlines text' with
           | [] => [String c EmptyString]
           | line :: lines => String c line :: lines
           end
  end.

End StringIO.

(** What the feeds take from their surroundings: [date2num] of
    [backtrader.utils], which turns a datetime into the day number the
    engine's lines store, and [datetime.fromtimestamp], which depends on the
    time zone of the machine. *)
Class Host : Type := {
  date2num : Py.datetime -> float;
  fromtimestamp : Py.value -> Py.result Py.datetime
}.

(* ===================================================================== *)
(** * feeds/base.py *)
(* ===================================================================== *)

Module Base.
Import Py.

(** [class Bar]: a frozen dataclass.  The annotations are not enforced, so a
    field holds whatever object the constructor was given. *)
Record Bar : Type := {
  timestamp : datetime;
  open : value;
  high : value;
  low : value;
  close : value;
  volume : value;
  openinterest : value
}.

(** [Bar(timestamp=..., open=..., ...)] with [openinterest] left to its
    default. *)
Definition mkBar (ts : datetime) (o h l c v : value) : Bar :=
  {| timestamp := ts; open := o; high := h; low := l; close := c;
     volume := v; openinterest := VFloat 0 |}.

(** [Bar.to_lines]: the dict literal, items in the order written. *)
Definition to_lines `{Host} (self : Bar) : list (string * value) :=
  [ ("datetime", VFloat (date2num (timestamp self)));
    ("open", open self);
    ("high", high self);
    ("low", low self);
    ("close", close self);
    ("volume", volume self);
    ("openinterest", VFloat 0) ]%string.

(** [class BarSeries] *)
Record BarSeries : Type := {
  bars : list Bar;
  symbol : string;
  timeframe : string
}.

(** [BarSeries.__iter__] *)
Definition __iter__ (self : BarSeries) : list Bar := bars self.

(** [BarSeries.__len__] *)
Definition __len__ (self : BarSeries) : Z := Z.of_nat (length (bars self)).

(** A pandas [DataFrame], as far as the feeds use one: its column labels and
    its rows. *)
Record DataFrame : Type := {
  columns : list string;
  rows : list (list value)
}.

(** [pd.DataFrame(columns=cols)]: a frame without rows. *)
Definition DataFrame_new (cols : list string) : DataFrame :=
  {| columns := cols; rows := [] |}.

(** [vars(b)] for a [Bar]: the class is declared with [slots=True], so its
    instances have no [__dict__] and [vars] raises. *)
Definition vars_ (b : Bar) : result (list (string * value)) := Raise TypeError.

(** [BarSeries.to_dataframe]; [frame_of_records] stands for pandas building
    a frame from a list of dicts and moving ["timestamp"] to the index. *)
Definition to_dataframe
    (frame_of_records : list (list (string * value)) -> result DataFrame)
    (self : BarSeries) : result DataFrame :=
  match bars self with
  | [] => Ok (DataFrame_new ["open"; "high"; "low"; "close"; "volume"]%string)
  | _ :: _ =>
      records ← comprehension vars_ (bars self);
      frame_of_records records
  end.

End Base.

(* ===================================================================== *)
(** * feeds/yahoo.py *)
(* ===================================================================== *)

(** ** [class YahooFinanceCSVData] *)

Module YahooFinanceCSVData.
Import Py Base.

(** [params] of the class, and [sessionend] of the base class. *)
Record params : Set := {
  reverse : bool;
  adjclose : bool;
  adjvolume : bool;
  round : bool;
  decimals : pyint;
  roundvolume : pyint;
  swapcloses : bool;
  sessionend : time
}.

(** The declared defaults, with [sessionend] at the last moment of the
    day. *)
Definition default_params : params :=
  {| reverse := false; adjclose := true; adjvolume := true; round := true;
     decimals := PInt 2; roundvolume := PBool false; swapcloses := false;
     sessionend := {| hour := 23; minute := 59; second := 59;
                      microsecond := 999990 |} |}.

(** The part of the feed object the parser works on: [f], the lines still to
    be read, each one tokenized, and [lines], slot 0 of every line buffer. *)
Record feed : Type := {
  f : list (list string);
  lines : gmap string value
}.

(** Modelled from the spec: the Line Source of the base class, which yields
    the next tokenized line or signals exhaustion with [None]. *)
Definition _getnextline : M feed (option (list string)) := fun self =>
  match f self with
  | [] => (Ok None, self)
  | linetokens :: rest => (Ok (Some linetokens), {| f := rest; lines := lines self |})
  end.

(** [self.lines.<name>[0] = v] *)
Definition setline (name : string) (v : value) : M feed unit :=
  modify (fun self => {| f := f self; lines := <[name := v]> (lines self) |}).

(** [date(int(dttxt[0:4]), int(dttxt[5:7]), int(dttxt[8:10]))] *)
Definition date_of_text (dttxt : string) : result date :=
  y ← int_of_string (slice dttxt 0 4);
  m ← int_of_string (slice dttxt 5 7);
  d ← int_of_string (slice dttxt 8 10);
  date_new y m d.

(** [float(linetokens[i])] *)
Definition float_at (linetokens : list string) (i : Z) : result float :=
  tok ← list_getitem linetokens i; float_of_string tok.

(** [any(tok == 'null' for tok in linetokens[1:])]: what the [for] loop of
    [_loadline] finds out before it refetches. *)
Definition nullseen (linetokens : list string) : bool :=
  existsb (fun tok => (tok =? "null")%string) (tail linetokens).

(** The [while True] loop of [_loadline] over the lines left in [f]: a line
    with a null token is replaced by the next line, until a line without one
    is reached ([Some]) or no line can be fetched ([None]).  The second
    component is what is left of [f]. *)
Fixpoint _loadline_scan (src : list (list string)) (linetokens : list string)
  : option (list string) * list (list string) :=
  if nullseen linetokens then
    match src with
    | [] => (None, [])
    | next :: rest =>
        match next with
        | [] => (None, rest)            (* [not linetokens] *)
        | _ :: _ => _loadline_scan rest next
        end
    end
  else (Some linetokens, src).

(** The statements of [_loadline] after the loop. *)
Definition _loadline_fields `{Host} (p : params) (linetokens : list string)
  : M feed bool :=
  dttxt ← lift (list_getitem linetokens 0);
  dt ← lift (date_of_text dttxt);
  let dtnum := date2num (combine dt (sessionend p)) in
  _ ← setline "datetime" (VFloat dtnum);
  o ← lift (float_at linetokens 1);
  h ← lift (float_at linetokens 2);
  l ← lift (float_at linetokens 3);
  c ← lift (float_at linetokens 4);
  _ ← setline "openinterest" (VFloat 0);
  adjustedclose ← lift (float_at linetokens 5);
  let v := match float_at linetokens 6 with
           | Ok v => v
           | Raise _ => 0%float
           end in
  let '(c, adjustedclose) :=
    if swapcloses p then (adjustedclose, c) else (c, adjustedclose) in
  adjfactor ← lift (truediv c adjustedclose);
  '(o, h, l, c, v) ← lift (
    if adjclose p then
      o ← truediv o adjfactor;
      h ← truediv h adjfactor;
      l ← truediv l adjfactor;
      Ok (o, h, l, adjustedclose, if adjvolume p then (v * adjfactor)%float else v)
    else Ok (o, h, l, c, v));
  '(o, h, l, c) ← lift (
    if round p then
      o ← Py.round o (index (decimals p));
      h ← Py.round h (index (decimals p));
      l ← Py.round l (index (decimals p));
      c ← Py.round c (index (decimals p));
      Ok (o, h, l, c)
    else Ok (o, h, l, c));
  v ← lift (Py.round v (index (roundvolume p)));
  _ ← setline "open" (VFloat o);
  _ ← setline "high" (VFloat h);
  _ ← setline "low" (VFloat l);
  _ ← setline "close" (VFloat c);
  _ ← setline "volume" (VFloat v);
  _ ← setline "adjclose" (VFloat adjustedclose);
  mret true.

(** [YahooFinanceCSVData._loadline] *)
Definition _loadline `{Host} (p : params) (linetokens : list string)
  : M feed bool := fun self =>
  match _loadline_scan (f self) linetokens with
  | (None, rest) => (Ok false, {| f := rest; lines := lines self |})
  | (Some linetokens, rest) =>
      _loadline_fields p linetokens {| f := rest; lines := lines self |}
  end.

(** [YahooFinanceCSVData.start], after the base class has opened the file:
    the file is given as the text lines its iteration yields, and so is the
    [StringIO] that replaces it. *)
Definition start (p : params) (file : list string) : list string :=
  if negb (reverse p) then file
  else
    let dq := fold_left (fun dq line => line :: dq) file [] in
    StringIO.readlines (StringIO.writelines dq).

End YahooFinanceCSVData.

(** ** [class YahooFetcher] *)

Module YahooFetcher.
Import Py Base.

(** What [fetch_data] hands back: the annotation promises a [BarSeries]. *)
Inductive fetched : Type :=
  | Series (s : BarSeries)
  | Frame (df : DataFrame).

(** [len(x)] *)
Definition len (x : fetched) : Z :=
  match x with
  | Series s => __len__ s
  | Frame df => Z.of_nat (length (rows df))
  end.

(** [ohlcv[k][i]] *)
Definition quote_at (ohlcv : value) (k : string) (i : Z) : result value :=
  column ← getitem_key ohlcv k; getitem_index column i.

(** [any(ohlcv[k][i] is None for k in keys)]: the generator is consumed
    until the first [None]. *)
Fixpoint any_None (ohlcv : value) (i : Z) (keys : list string) : result bool :=
  match keys with
  | [] => Ok false
  | k :: keys' =>
      x ← quote_at ohlcv k i;
      if is_None x then Ok true else any_None ohlcv i keys'
  end.

(** The [for i, ts in enumerate(timestamps)] loop, from position [i] on,
    with [bars] as appended to so far. *)
Fixpoint fetch_data_loop `{Host} (ohlcv : value) (i : Z)
    (timestamps : list value) (bars : list Bar) : result (list Bar) :=
  match timestamps with
  | [] => Ok bars
  | ts :: rest =>
      skip ← any_None ohlcv i ["open"; "high"; "low"; "close"]%string;
      if (skip : bool) then fetch_data_loop ohlcv (i + 1) rest bars
      else
        t ← fromtimestamp ts;
        o ← quote_at ohlcv "open" i;
        h ← quote_at ohlcv "high" i;
        l ← quote_at ohlcv "low" i;
        c ← quote_at ohlcv "close" i;
        v ← quote_at ohlcv "volume" i;
        fetch_data_loop ohlcv (i + 1) rest
          (bars ++ [mkBar t o h l c (or_ v (VFloat 0))])
  end.

(** [YahooFetcher.fetch_data], from the decoded document [data] on: the
    request itself and [raise_for_status] belong to the HTTP client.  The
    state is the text printed so far. *)
Definition fetch_data `{Host} (data : value) (symbol : string)
    (start end_ : datetime) (timeframe : string) : M (list string) fetched :=
  error ← lift (chart ← get data "chart" (VDict []); get chart "error" VNone);
  if truthy error then lift (Raise ValueError)
  else
    result ← lift (chart ← getitem_key data "chart";
                   results ← getitem_key chart "result";
                   getitem_index results 0);
    has_timestamp ← lift (contains result "timestamp");
    if negb has_timestamp then
      _ ← print ("WARNING: No trading data found for " ++ symbol
                 ++ " between " ++ str_datetime start
                 ++ " and " ++ str_datetime end_ ++ ".");
      mret (Frame (DataFrame_new ["open"; "high"; "low"; "close"; "volume"]%string))
    else
      timestamps ← lift (getitem_key result "timestamp");
      ohlcv ← lift (indicators ← getitem_key result "indicators";
                    quote ← getitem_key indicators "quote";
                    getitem_index quote 0);
      bars ← lift (items ← iter timestamps; fetch_data_loop ohlcv 0 items []);
      mret (Series {| bars := bars; symbol := symbol; timeframe := timeframe |}).

End YahooFetcher.

(** ** [class YahooFinanceData] *)

Module YahooFinanceData.
Import Py Base YahooFetcher.

(** [params]; [dataname] is the base class's.  A fetcher is whatever has a
    [fetch_data] method: it is given as what awaiting that method yields. *)
Record params : Type := {
  fetcher : string -> datetime -> datetime -> string -> result fetched;
  fromdate : option datetime;
  todate : option datetime;
  dataname : string
}.

(** The attributes of the feed object: an attribute not yet assigned is
    [None] here; [lines] is slot 0 of every line buffer. *)
Record feed : Type := {
  _df : option DataFrame;
  _bars : option fetched;
  _idx : Z;
  lines : gmap string value
}.

(** [YahooFinanceData.__init__] *)
Definition __init__ : feed :=
  {| _df := None; _bars := None; _idx := -1; lines := ∅ |}.

(** A [YahooFetcher] whose client answers with the document [data]. *)
Definition YahooFetcher_ `{Host} (data : value)
  : string -> datetime -> datetime -> string -> result fetched :=
  fun symbol start end_ timeframe =>
    fst (fetch_data data symbol start end_ timeframe []).

(** [YahooFinanceData.start]; [p.fetcher] is the fetcher in use. *)
Definition start (p : params) : M feed unit := fun self =>
  match fromdate p, todate p with
  | Some fromdate, Some todate =>
      match fetcher p (dataname p) fromdate todate "1d" with
      | Ok series =>
          (Ok tt, {| _df := _df self; _bars := Some series; _idx := -1;
                     lines := lines self |})
      | Raise e => (Raise e, self)
      end
  | _, _ => (Raise ValueError, self)
  end.

(** Modelled from the spec: the line buffers of the host engine, whose
    class is not among these sources.  They hold real numbers: a buffer is
    an array of doubles, and [getattr(self.lines, key)[0] = value] stores
    [value] as the item assignment of an [array('d')] does, as a double or
    not at all. *)
Definition setline (key : string) (v : value) : M feed unit :=
  x ← lift (as_double v);
  modify (fun self =>
    {| _df := _df self; _bars := _bars self; _idx := _idx self;
       lines := <[key := VFloat x]> (lines self) |}).

(** [for key, value in bar_dict.items(): ...] *)
Fixpoint setlines (items : list (string * value)) : M feed unit :=
  match items with
  | [] => mret tt
  | (key, v) :: items' => _ ← setline key v; setlines items'
  end.

(** [YahooFinanceData._load] *)
Definition _load `{Host} : M feed bool :=
  _ ← modify (fun self =>
         {| _df := _df self; _bars := _bars self; _idx := _idx self + 1;
            lines := lines self |});
  self ← self_;
  match _bars self with
  | None => lift (Raise AttributeError)
  | Some series =>
      if len series <=? _idx self then mret false
      else
        match series with
        | Frame _ => lift (Raise AttributeError)
        | Series s =>
            bar ← lift (list_getitem (bars s) (_idx self));
            _ ← setlines (to_lines bar);
            mret true
        end
  end.

End YahooFinanceData.

(** ** A host *)

(** A machine in the UTC zone, as the interpreter behaves on Linux.  Day
    numbers are those of [backtrader.utils.date2num]: the ordinal of the
    date, 0001-01-01 being day 1, and the time of day as fractions of the
    day, summed with [math.fsum]. *)
Module Utc.
Import Py.

Definition days_before_year (y : Z) : Z :=
  let y := y - 1 in y * 365 + y / 4 - y / 100 + y / 400.

Definition days_before_month (y m : Z) : Z :=
  fold_left (fun acc k => if k <? m then acc + days_in_month y k else acc)
            [1; 2; 3; 4; 5; 6; 7; 8; 9; 10; 11] 0.

Definition toordinal (d : date) : Z :=
  days_before_year (year d) + days_before_month (year d) (month d) + day d.

Definition utc_date2num (x : datetime) : float :=
  let t := dt_time x in
  fsum [ float_of_Z (toordinal (dt_date x));
         (float_of_Z (hour t) / 24)%float;
         (float_of_Z (minute t) / 1440)%float;
         (float_of_Z (second t) / 86400)%float;
         (float_of_Z (microsecond t) / 86400000000)%float ].

(** The civil date of a day counted from 1970-01-01. *)
Definition civil_from_days (z : Z) : Z * Z * Z :=
  let z := z + 719468 in
  let era := z / 146097 in
  let doe := z - era * 146097 in
  let yoe := (doe - doe / 1460 + doe / 36524 - doe / 146096) / 365 in
  let doy := doe - (365 * yoe + yoe / 4 - yoe / 100) in
  let mp := (5 * doy + 2) / 153 in
  let d := doy - (153 * mp + 2) / 5 + 1 in
  let m := if mp <? 10 then mp + 3 else mp - 9 in
  let y := yoe + era * 400 + (if m <=? 2 then 1 else 0) in
  (y, m, d).

Definition year_of (timet : Z) : Z :=
  let '(y, _, _) := civil_from_days (timet / 86400) in y.

(** The datetime [us] microseconds after second [timet] of the epoch.  The
    seconds must fit a 64-bit [time_t] and the year the [int] that
    [localtime] keeps it in; the year must lie between 1 and 9999, and so
    must that of the day before, which is probed for a repeated hour. *)
Definition of_timet_and_us (timet us : Z) : result datetime :=
  if (timet <? - 2 ^ 63) || (2 ^ 63 <=? timet) then Raise OverflowError
  else if (year_of timet - 1900 <? - 2 ^ 31) || (2 ^ 31 <=? year_of timet - 1900)
  then Raise OSError
  else
    let '(y, m, d) := civil_from_days (timet / 86400) in
    let s := timet mod 86400 in
    dt ← date_new y m d;
    if year_of (timet - 86400) <? 1 then Raise ValueError
    else Ok (combine dt {| hour := s / 3600; minute := s mod 3600 / 60;
                           second := s mod 60; microsecond := us |}).

(** [datetime.fromtimestamp(ts)]: a float is split into its whole seconds
    and its fraction, the fraction is multiplied by a million in double
    arithmetic and rounded half to even, and a full second is carried. *)
Definition utc_fromtimestamp (ts : value) : result datetime :=
  match ts with
  | VInt z => of_timet_and_us z 0
  | VBool b => of_timet_and_us (if b then 1 else 0) 0
  | VFloat x =>
      match Prim2SF x with
      | S754_finite neg m e =>
          let whole := if 0 <=? e then Zpos m * 2 ^ e else Zpos m / 2 ^ (- e) in
          let part := if 0 <=? e then 0 else Zpos m mod 2 ^ (- e) in
          let floatpart :=
            match part with
            | Zpos q => SF2Prim (S754_finite neg q e)
            | _ => if neg then neg_zero else zero
            end in
          let scaled := dyadic (floatpart * 1000000)%float in
          let us := round_half_even
                      (Z.abs (fst scaled) * 2 ^ Z.max (snd scaled) 0)
                      (2 ^ Z.max (- snd scaled) 0) in
          let us := if fst scaled <? 0 then - us else us in
          let intpart := if neg then - whole else whole in
          if 1000000 <=? us then of_timet_and_us (intpart + 1) (us - 1000000)
          else if us <? 0 then of_timet_and_us (intpart - 1) (us + 1000000)
          else of_timet_and_us intpart us
      | S754_zero _ => of_timet_and_us 0 0
      | S754_infinity _ => Raise OverflowError
      | S754_nan => Raise ValueError
      end
  | _ => Raise TypeError
  end.

Definition host : Host :=
  {| date2num := utc_date2num; fromtimestamp := utc_fromtimestamp |}.

End Utc.

(** The conversions of the host are the last thing to unfold when two
    terms are compared. *)
Strategy 1000 [Utc.utc_date2num Utc.utc_fromtimestamp].

(* ===================================================================== *)
(** * Vocabulary of the statements *)
(* ===================================================================== *)

Import Py Base.

(** A price after the rounding block of [_loadline]: rounded to [decimals]
    places when [round] is set, left alone otherwise. *)
Definition round_price (p : YahooFinanceCSVData.params) (x : float)
  : result float :=
  if YahooFinanceCSVData.round p
  then Py.round x (index (YahooFinanceCSVData.decimals p))
  else Ok x.

(** The parameters [p] with [swapcloses] set to [b]. *)
Definition with_swapcloses (b : bool) (p : YahooFinanceCSVData.params)
  : YahooFinanceCSVData.params :=
  {| YahooFinanceCSVData.reverse := YahooFinanceCSVData.reverse p;
     YahooFinanceCSVData.adjclose := YahooFinanceCSVData.adjclose p;
     YahooFinanceCSVData.adjvolume := YahooFinanceCSVData.adjvolume p;
     YahooFinanceCSVData.round := YahooFinanceCSVData.round p;
     YahooFinanceCSVData.decimals := YahooFinanceCSVData.decimals p;
     YahooFinanceCSVData.roundvolume := YahooFinanceCSVData.roundvolume p;
     YahooFinanceCSVData.swapcloses := b;
     YahooFinanceCSVData.sessionend := YahooFinanceCSVData.sessionend p |}.

(** The parameters [p] with [round] set to [b]. *)
Definition with_round (b : bool) (p : YahooFinanceCSVData.params)
  : YahooFinanceCSVData.params :=
  {| YahooFinanceCSVData.reverse := YahooFinanceCSVData.reverse p;
     YahooFinanceCSVData.adjclose := YahooFinanceCSVData.adjclose p;
     YahooFinanceCSVData.adjvolume := YahooFinanceCSVData.adjvolume p;
     YahooFinanceCSVData.round := b;
     YahooFinanceCSVData.decimals := YahooFinanceCSVData.decimals p;
     YahooFinanceCSVData.roundvolume := YahooFinanceCSVData.roundvolume p;
     YahooFinanceCSVData.swapcloses := YahooFinanceCSVData.swapcloses p;
     YahooFinanceCSVData.sessionend := YahooFinanceCSVData.sessionend p |}.

(** The line buffers a successful [_loadline] leaves behind. *)
Definition loaded_lines (dtnum o h l c v adjustedclose : float)
    (before : gmap string value) : gmap string value :=
  <["adjclose" := VFloat adjustedclose]>
  (<["volume" := VFloat v]>
  (<["close" := VFloat c]>
  (<["low" := VFloat l]>
  (<["high" := VFloat h]>
  (<["open" := VFloat o]>
  (<["openinterest" := VFloat 0]>
  (<["datetime" := VFloat dtnum]> before))))))).

(** The line buffers as [_loadline] has written them when it fails after the
    adjusted close was read. *)
Definition started_lines (dtnum : float) (before : gmap string value)
  : gmap string value :=
  <["openinterest" := VFloat 0]> (<["datetime" := VFloat dtnum]> before).

(** Position [k] of the quote arrays is complete: none of the open, high,
    low and close found there is [None]. *)
Definition complete (os hs ls cs : list value) (k : nat) : bool :=
  negb (is_None (nth k os VNone) || is_None (nth k hs VNone)
        || is_None (nth k ls VNone) || is_None (nth k cs VNone)).

(** 1970-01-01 00:00:00, for a position without a timestamp. *)
Definition epoch : datetime :=
  {| dt_date := {| year := 1970; month := 1; day := 1 |};
     dt_time := {| hour := 0; minute := 0; second := 0; microsecond := 0 |} |}.

(** The bar made of position [k] of the converted timestamps [dts] and of
    the quote arrays, a missing or zero volume counting as 0.0. *)
Definition bar_at (dts : list datetime) (os hs ls cs vs : list value)
    (k : nat) : Bar :=
  mkBar (nth k dts epoch) (nth k os VNone) (nth k hs VNone) (nth k ls VNone)
        (nth k cs VNone) (or_ (nth k vs VNone) (VFloat 0)).

(** [data] has the shape of a chart answer without an error: its first
    result carries the timestamp array [tss] and, as its first quote, the
    arrays [os], [hs], [ls], [cs] and [vs]. *)
Definition chart_document (data : value) (tss os hs ls cs vs : list value)
  : Prop :=
  exists chart error results result indicators quote ohlcv,
    getitem_key data "chart" = Ok chart
    /\ get chart "error" VNone = Ok error /\ truthy error = false
    /\ getitem_key chart "result" = Ok results
    /\ getitem_index results 0 = Ok result
    /\ getitem_key result "timestamp" = Ok (VList tss)
    /\ getitem_key result "indicators" = Ok indicators
    /\ getitem_key indicators "quote" = Ok quote
    /\ getitem_index quote 0 = Ok ohlcv
    /\ getitem_key ohlcv "open" = Ok (VList os)
    /\ getitem_key ohlcv "high" = Ok (VList hs)
    /\ getitem_key ohlcv "low" = Ok (VList ls)
    /\ getitem_key ohlcv "close" = Ok (VList cs)
    /\ getitem_key ohlcv "volume" = Ok (VList vs).

(** [x < y] on naive datetimes, as a relation. *)
Definition datetime_lt (x y : datetime) : Prop := datetime_ltb x y = true.

(** Scenario C of the specification: three timestamps, the close of the
    second one null; and, for the volume, a null at the third. *)
Definition scenario_C : value :=
  VDict [("chart", VDict [
    ("result", VList [VDict [
       ("meta", VDict [("symbol", VStr "NVDA")]);
       ("timestamp", VList [VInt 1; VInt 2; VInt 3]);
       ("indicators", VDict [("quote", VList [VDict [
          ("open", VList [VInt 9; VInt 10; VInt 11]);
          ("high", VList [VInt 11; VInt 12; VInt 13]);
          ("low", VList [VInt 8; VInt 9; VInt 10]);
          ("close", VList [VInt 10; VNone; VInt 12]);
          ("volume", VList [VInt 100; VInt 200; VNone])]])])]]);
    ("error", VNone)])]%string.

(** The series [fetch_data] makes of scenario C on a host in the UTC zone. *)
Definition scenario_C_series : BarSeries :=
  {| bars :=
       [ mkBar {| dt_date := {| year := 1970; month := 1; day := 1 |};
                  dt_time := {| hour := 0; minute := 0; second := 1;
                                microsecond := 0 |} |}
               (VInt 9) (VInt 11) (VInt 8) (VInt 10) (VInt 100);
         mkBar {| dt_date := {| year := 1970; month := 1; day := 1 |};
                  dt_time := {| hour := 0; minute := 0; second := 3;
                                microsecond := 0 |} |}
               (VInt 11) (VInt 13) (VInt 10) (VInt 12) (VFloat 0) ];
     symbol := "NVDA"; timeframe := "1d" |}.

(** A feed for NVDA whose fetcher is answered with scenario C. *)
Definition scenario_C_params : YahooFinanceData.params :=
  {| YahooFinanceData.fetcher :=
       YahooFinanceData.YahooFetcher_ (H := Utc.host) scenario_C;
     YahooFinanceData.fromdate :=
       Some {| dt_date := {| year := 1970; month := 1; day := 1 |};
               dt_time := {| hour := 0; minute := 0; second := 0;
                             microsecond := 0 |} |};
     YahooFinanceData.todate :=
       Some {| dt_date := {| year := 1970; month := 1; day := 2 |};
               dt_time := {| hour := 0; minute := 0; second := 0;
                             microsecond := 0 |} |};
     YahooFinanceData.dataname := "NVDA" |}.

(** The answer to a request for a range without trading: a result with
    neither timestamps nor quotes. *)
Definition no_data_document : value :=
  VDict [("chart", VDict [
    ("result", VList [VDict [
       ("meta", VDict [("symbol", VStr "NVDA")]);
       ("indicators", VDict [("quote", VList [VDict []])])]]);
    ("error", VNone)])]%string.

Definition midnight (y m d : Z) : datetime :=
  {| dt_date := {| year := y; month := m; day := d |};
     dt_time := {| hour := 0; minute := 0; second := 0; microsecond := 0 |} |}.

(** The line buffers after the items of a [to_lines] dict were stored. *)
Definition stored (items : list (string * value)) (before : gmap string value)
  : gmap string value :=
  fold_left (fun acc kv => <[fst kv := snd kv]> acc) items before.

(** The prices and the volume of a bar are real numbers, each one a double
    or an integer a double can hold. *)
Definition real_valued (b : Bar) : bool :=
  forallb (fun v => is_Ok (as_double v))
          [open b; high b; low b; close b; volume b].

(** The items of a [to_lines] dict as the line buffers keep them: each value
    as a double. *)
Definition doubles (items : list (string * value)) : list (string * value) :=
  map (fun kv => (fst kv, match as_double (snd kv) with
                          | Ok x => VFloat x
                          | Raise _ => snd kv
                          end)) items.

(** [n] calls of [_load] in a row: what each returned, first call first, and
    the feed as the last one left it. *)
Fixpoint loads `{Host} (n : nat) (self : YahooFinanceData.feed)
  : list (result bool) * YahooFinanceData.feed :=
  match n with
  | O => ([], self)
  | S n' =>
      let (r, self1) := YahooFinanceData._load self in
      let (rs, self2) := loads n' self1 in
      (r :: rs, self2)
  end.

(** The parameters [p] with [adjvolume] set to [b]. *)
Definition with_adjvolume (b : bool) (p : YahooFinanceCSVData.params)
  : YahooFinanceCSVData.params :=
  {| YahooFinanceCSVData.reverse := YahooFinanceCSVData.reverse p;
     YahooFinanceCSVData.adjclose := YahooFinanceCSVData.adjclose p;
     YahooFinanceCSVData.adjvolume := b;
     YahooFinanceCSVData.round := YahooFinanceCSVData.round p;
     YahooFinanceCSVData.decimals := YahooFinanceCSVData.decimals p;
     YahooFinanceCSVData.roundvolume := YahooFinanceCSVData.roundvolume p;
     YahooFinanceCSVData.swapcloses := YahooFinanceCSVData.swapcloses p;
     YahooFinanceCSVData.sessionend := YahooFinanceCSVData.sessionend p |}.

(** The parameters [p] with [reverse] set to [b]. *)
Definition with_reverse (b : bool) (p : YahooFinanceCSVData.params)
  : YahooFinanceCSVData.params :=
  {| YahooFinanceCSVData.reverse := b;
     YahooFinanceCSVData.adjclose := YahooFinanceCSVData.adjclose p;
     YahooFinanceCSVData.adjvolume := YahooFinanceCSVData.adjvolume p;
     YahooFinanceCSVData.round := YahooFinanceCSVData.round p;
     YahooFinanceCSVData.decimals := YahooFinanceCSVData.decimals p;
     YahooFinanceCSVData.roundvolume := YahooFinanceCSVData.roundvolume p;
     YahooFinanceCSVData.swapcloses := YahooFinanceCSVData.swapcloses p;
     YahooFinanceCSVData.sessionend := YahooFinanceCSVData.sessionend p |}.

(** Text without a line feed or a carriage return in it. *)
Fixpoint plain (s : string) : bool :=
  match s with
  | EmptyString => true
  | String c s' =>
      negb (c =? StringIO.LF)%char && negb (c =? StringIO.CR)%char && plain s'
  end.

(** A line as a text file yields it when it is not the last one: plain text
    ended by one line feed. *)
Definition terminated (line : string) : Prop :=
  exists body, plain body = true
               /\ line = (body ++ String StringIO.LF EmptyString)%string.

(** The text [body] followed by a line feed. *)
Definition newline_ended (body : string) : string :=
  (body ++ String StringIO.LF EmptyString)%string.

(** The line buffers a price, volume or adjusted close is stored in. *)
Definition priced (key : string) : Prop :=
  In key ["open"; "high"; "low"; "close"; "volume"; "adjclose"]%string.

(** The keys of the dict [to_lines] returns. *)
Definition line_keys : list string :=
  ["datetime"; "open"; "high"; "low"; "close"; "volume"; "openinterest"]%string.



(** Position [k] of the quote [ohlcv] passes the check of [fetch_data]: its
    open, high, low and close can be read and none of them is [None]. *)
Definition kept (ohlcv : value) (k : nat) : bool :=
  match YahooFetcher.any_None ohlcv (Z.of_nat k)
          ["open"; "high"; "low"; "close"]%string with
  | Ok false => true
  | _ => false
  end.


(** One timestamp, the open given as text. *)
Definition string_price_document : value :=
  VDict [("chart", VDict [
    ("result", VList [VDict [
       ("timestamp", VList [VInt 1]);
       ("indicators", VDict [("quote", VList [VDict [
          ("open", VList [VStr "9"]);
          ("high", VList [VInt 11]);
          ("low", VList [VInt 8]);
          ("close", VList [VInt 10]);
          ("volume", VList [VInt 100])]])])]]);
    ("error", VNone)])]%string.


(** A chart answer carrying an error, and one whose first result has an
    empty timestamp array and no quote columns. *)
Definition error_document : value :=
  VDict [("chart", VDict [
    ("result", VNone);
    ("error", VDict [("code", VStr "Not Found");
                     ("description", VStr "No data found")])])]%string.

Definition empty_document : value :=
  VDict [("chart", VDict [
    ("result", VList [VDict [
       ("timestamp", VList []);
       ("indicators", VDict [("quote", VList [VDict []])])]]);
    ("error", VNone)])]%string.

(** Scenario C with its open array one item short. *)
Definition ragged_document : value :=
  VDict [("chart", VDict [
    ("result", VList [VDict [
       ("timestamp", VList [VInt 1; VInt 2; VInt 3]);
       ("indicators", VDict [("quote", VList [VDict [
          ("open", VList [VInt 9; VInt 10]);
          ("high", VList [VInt 11; VInt 12; VInt 13]);
          ("low", VList [VInt 8; VInt 9; VInt 10]);
          ("close", VList [VInt 10; VNone; VInt 12]);
          ("volume", VList [VInt 100; VInt 200; VNone])]])])]]);
    ("error", VNone)])]%string.

(** Two timestamps less than a microsecond apart, 2^-24 s and 2^-23 s,
    every price present. *)
Definition close_timestamps_document : value :=
  VDict [("chart", VDict [
    ("result", VList [VDict [
       ("timestamp", VList [VFloat 0x1p-24; VFloat 0x1p-23]);
       ("indicators", VDict [("quote", VList [VDict [
          ("open", VList [VInt 9; VInt 10]);
          ("high", VList [VInt 11; VInt 12]);
          ("low", VList [VInt 8; VInt 9]);
          ("close", VList [VInt 10; VInt 11]);
          ("volume", VList [VInt 100; VInt 200])]])])]]);
    ("error", VNone)])]%string.

(* ===================================================================== *)
(** * Stepping through a command *)
(* ===================================================================== *)

Section Commands.
Context {S A B : Type}.

Lemma bind_lift (r : result A) (k : A -> M S B) (s : S) :
  (lift r ≫= k) s = match r with Ok a => k a s | Raise e => (Raise e, s) end.
Proof. unfold mbind, M_bind, lift. destruct r; reflexivity. Qed.

Lemma bind_modify (g : S -> S) (k : unit -> M S B) (s : S) :
  (modify g ≫= k) s = k tt (g s).
Proof. reflexivity. Qed.

Lemma bind_self (k : S -> M S B) (s : S) : (self_ ≫= k) s = k s s.
Proof. reflexivity. Qed.

End Commands.

(** Subscripting a list inside its bounds. *)
Lemma list_getitem_nth {A} (l : list A) (i : nat) (d : A) :
  (i < length l)%nat -> list_getitem l (Z.of_nat i) = Ok (nth i l d).
Proof.
  intros Hi. unfold list_getitem.
  assert (E0 : (Z.of_nat i <? 0) = false) by (apply Z.ltb_ge; lia).
  rewrite E0. cbv zeta. rewrite E0, Nat2Z.id.
  destruct (nth_error l i) as [x|] eqn:E.
  - rewrite (nth_error_nth _ _ d E). reflexivity.
  - apply nth_error_None in E. lia.
Qed.

(* ===================================================================== *)
(** * The CSV adjustment parser *)
(* ===================================================================== *)

Module CSVAdjustmentParser.
Import YahooFinanceCSVData.

Section Parser.
Context `{Host}.

Lemma bind_setline {B} name v (k : unit -> M feed B) (s : feed) :
  (setline name v ≫= k) s
  = k tt {| f := f s; lines := <[name := v]> (lines s) |}.
Proof. reflexivity. Qed.

Lemma truediv_Ok (a b : float) :
  (b =? 0)%float = false -> truediv a b = Ok (a / b)%float.
Proof. intros E. unfold truediv. rewrite E. reflexivity. Qed.

Lemma truediv_Raise (a b : float) :
  (b =? 0)%float = true -> truediv a b = Raise ZeroDivisionError.
Proof. intros E. unfold truediv. rewrite E. reflexivity. Qed.

(** A line without a null token leaves the loop at once, nothing fetched. *)
Lemma scan_no_null src linetokens :
  nullseen linetokens = false ->
  _loadline_scan src linetokens = (Some linetokens, src).
Proof. intros E. destruct src; simpl; rewrite E; reflexivity. Qed.

(** The statements of [_loadline] up to the reading of the adjusted close. *)
Lemma loadline_prefix p linetokens self dttxt dt o h l c0 a0 :
  nullseen linetokens = false ->
  list_getitem linetokens 0 = Ok dttxt ->
  date_of_text dttxt = Ok dt ->
  float_at linetokens 1 = Ok o ->
  float_at linetokens 2 = Ok h ->
  float_at linetokens 3 = Ok l ->
  float_at linetokens 4 = Ok c0 ->
  float_at linetokens 5 = Ok a0 ->
  exists k,
    _loadline p linetokens self
    = k {| f := f self;
           lines := started_lines (date2num (combine dt (sessionend p)))
                                  (lines self) |}
    /\ k = (let v := match float_at linetokens 6 with
                     | Ok v => v
                     | Raise _ => 0%float
                     end in
            let '(c, adjustedclose) :=
              if swapcloses p then (a0, c0) else (c0, a0) in
            adjfactor ← lift (truediv c adjustedclose);
            '(o, h, l, c, v) ← lift (
              if adjclose p then
                o ← truediv o adjfactor;
                h ← truediv h adjfactor;
                l ← truediv l adjfactor;
                Ok (o, h, l, adjustedclose,
                    if adjvolume p then (v * adjfactor)%float else v)
              else Ok (o, h, l, c, v));
            '(o, h, l, c) ← lift (
              if round p then
                o ← Py.round o (index (decimals p));
                h ← Py.round h (index (decimals p));
                l ← Py.round l (index (decimals p));
                c ← Py.round c (index (decimals p));
                Ok (o, h, l, c)
              else Ok (o, h, l, c));
            v ← lift (Py.round v (index (roundvolume p)));
            _ ← setline "open" (VFloat o);
            _ ← setline "high" (VFloat h);
            _ ← setline "low" (VFloat l);
            _ ← setline "close" (VFloat c);
            _ ← setline "volume" (VFloat v);
            _ ← setline "adjclose" (VFloat adjustedclose);
            mret true).
Proof.
  intros Hnull Hd Hdt Ho Hh Hl Hc Ha. eexists. split; [|reflexivity].
  unfold _loadline. rewrite (scan_no_null _ _ Hnull).
  unfold _loadline_fields.
  rewrite bind_lift, Hd, bind_lift, Hdt, bind_setline.
  rewrite bind_lift, Ho, bind_lift, Hh, bind_lift, Hl, bind_lift, Hc.
  rewrite bind_setline, bind_lift, Ha.
  reflexivity.
Qed.

(** The rounding block, in terms of [round_price]. *)
Lemma rounding_block p (o h l c o' h' l' c' : float) :
  round_price p o = Ok o' -> round_price p h = Ok h' ->
  round_price p l = Ok l' -> round_price p c = Ok c' ->
  (if round p then
     o ← Py.round o (index (decimals p));
     h ← Py.round h (index (decimals p));
     l ← Py.round l (index (decimals p));
     c ← Py.round c (index (decimals p));
     Ok (o, h, l, c)
   else Ok (o, h, l, c)) = Ok (o', h', l', c').
Proof.
  unfold round_price. destruct (round p).
  - intros -> -> -> ->. reflexivity.
  - intros [= ->] [= ->] [= ->] [= ->]. reflexivity.
Qed.

(** A line without a null token whose fields parse, whose adjusted close is
    not zero and, when [adjclose] is set, whose adjustment factor is not
    zero either: what [_loadline] stores for it. *)
Lemma loadline_values p linetokens self dttxt dt o h l c0 a0 o' h' l' c' v' :
  nullseen linetokens = false ->
  list_getitem linetokens 0 = Ok dttxt ->
  date_of_text dttxt = Ok dt ->
  float_at linetokens 1 = Ok o ->
  float_at linetokens 2 = Ok h ->
  float_at linetokens 3 = Ok l ->
  float_at linetokens 4 = Ok c0 ->
  float_at linetokens 5 = Ok a0 ->
  let v := match float_at linetokens 6 with
           | Ok v => v
           | Raise _ => 0%float
           end in
  let c := if swapcloses p then a0 else c0 in
  let adj := if swapcloses p then c0 else a0 in
  let factor := (c / adj)%float in
  (adj =? 0)%float = false ->
  (adjclose p = true -> (factor =? 0)%float = false) ->
  round_price p (if adjclose p then o / factor else o) = Ok o' ->
  round_price p (if adjclose p then h / factor else h) = Ok h' ->
  round_price p (if adjclose p then l / factor else l) = Ok l' ->
  round_price p (if adjclose p then adj else c) = Ok c' ->
  Py.round (if adjclose p && adjvolume p then v * factor else v)
           (index (roundvolume p)) = Ok v' ->
  _loadline p linetokens self
  = (Ok true,
     {| f := f self;
        lines := loaded_lines (date2num (combine dt (sessionend p)))
                              o' h' l' c' v' adj (lines self) |}).
Proof.
  intros Hnull Hd Hdt Ho Hh Hl Hc Ha v c adj factor Hadj Hfac Ro Rh Rl Rc Rv.
  destruct (loadline_prefix p _ self _ _ _ _ _ _ _ Hnull Hd Hdt Ho Hh Hl Hc Ha)
    as (k & -> & ->).
  fold v. subst c adj factor.
  destruct (swapcloses p); cbv zeta beta iota;
    rewrite bind_lift, (truediv_Ok _ _ Hadj), bind_lift;
    (destruct (adjclose p);
     [ rewrite !(truediv_Ok _ _ (Hfac eq_refl)) | ]);
    cbn [mbind result_bind rbind andb] in *;
    rewrite bind_lift, (rounding_block _ _ _ _ _ _ _ _ _ Ro Rh Rl Rc);
    rewrite bind_lift, Rv; reflexivity.
Qed.

(** The same line when the adjustment factor is zero under [adjclose]: the
    division of the open by it raises. *)
Lemma loadline_zero_factor p linetokens self dttxt dt o h l c0 a0 :
  nullseen linetokens = false ->
  list_getitem linetokens 0 = Ok dttxt ->
  date_of_text dttxt = Ok dt ->
  float_at linetokens 1 = Ok o ->
  float_at linetokens 2 = Ok h ->
  float_at linetokens 3 = Ok l ->
  float_at linetokens 4 = Ok c0 ->
  float_at linetokens 5 = Ok a0 ->
  let c := if swapcloses p then a0 else c0 in
  let adj := if swapcloses p then c0 else a0 in
  (adj =? 0)%float = false ->
  adjclose p = true ->
  (c / adj =? 0)%float = true ->
  _loadline p linetokens self
  = (Raise ZeroDivisionError,
     {| f := f self;
        lines := started_lines (date2num (combine dt (sessionend p)))
                               (lines self) |}).
Proof.
  intros Hnull Hd Hdt Ho Hh Hl Hc Ha c adj Hadj Hadjc Hfac.
  destruct (loadline_prefix p _ self _ _ _ _ _ _ _ Hnull Hd Hdt Ho Hh Hl Hc Ha)
    as (k & -> & ->).
  subst c adj.
  destruct (swapcloses p); cbv zeta beta iota;
    rewrite bind_lift, (truediv_Ok _ _ Hadj), bind_lift, Hadjc;
    rewrite (truediv_Raise o _ Hfac); reflexivity.
Qed.

(** What a call that returned [True] on such a line has stored. *)
Lemma loadline_true_inv p linetokens self self' dttxt dt o h l c0 a0 :
  nullseen linetokens = false ->
  list_getitem linetokens 0 = Ok dttxt ->
  date_of_text dttxt = Ok dt ->
  float_at linetokens 1 = Ok o ->
  float_at linetokens 2 = Ok h ->
  float_at linetokens 3 = Ok l ->
  float_at linetokens 4 = Ok c0 ->
  float_at linetokens 5 = Ok a0 ->
  _loadline p linetokens self = (Ok true, self') ->
  let v := match float_at linetokens 6 with
           | Ok v => v
           | Raise _ => 0%float
           end in
  let c := if swapcloses p then a0 else c0 in
  let adj := if swapcloses p then c0 else a0 in
  let factor := (c / adj)%float in
  exists o' h' l' c' v',
    round_price p (if adjclose p then o / factor else o) = Ok o'
    /\ round_price p (if adjclose p then h / factor else h) = Ok h'
    /\ round_price p (if adjclose p then l / factor else l) = Ok l'
    /\ round_price p (if adjclose p then adj else c) = Ok c'
    /\ Py.round (if adjclose p && adjvolume p then v * factor else v)
                (index (roundvolume p)) = Ok v'
    /\ self' = {| f := f self;
                  lines := loaded_lines (date2num (combine dt (sessionend p)))
                                        o' h' l' c' v' adj (lines self) |}.
Proof.
  intros Hnull Hd Hdt Ho Hh Hl Hc Ha Hrun v c adj factor.
  destruct (truediv c adj) as [fac|e] eqn:Efac.
  - assert (Hadj : (adj =? 0)%float = false).
    { unfold truediv in Efac. destruct (adj =? 0)%float; [discriminate|].
      reflexivity. }
    assert (Hfac : adjclose p = true -> (factor =? 0)%float = false).
    { intros Hadjc. destruct (factor =? 0)%float eqn:E; [|reflexivity].
      rewrite (loadline_zero_factor p _ self _ _ _ _ _ _ _ Hnull Hd Hdt Ho Hh
                 Hl Hc Ha Hadj Hadjc E) in Hrun.
      discriminate Hrun. }
    destruct (round_price p (if adjclose p then o / factor else o)%float)
      as [o'|eo] eqn:Ro;
    destruct (round_price p (if adjclose p then h / factor else h)%float)
      as [h'|eh] eqn:Rh;
    destruct (round_price p (if adjclose p then l / factor else l)%float)
      as [l'|el] eqn:Rl;
    destruct (round_price p (if adjclose p then adj else c))
      as [c'|ec] eqn:Rc;
    destruct (Py.round (if adjclose p && adjvolume p then v * factor else v)
                       (index (roundvolume p))) as [v'|ev] eqn:Rv.
    all: try (rewrite (loadline_values p _ self _ _ _ _ _ _ _ _ _ _ _ _ Hnull
                         Hd Hdt Ho Hh Hl Hc Ha Hadj Hfac Ro Rh Rl Rc Rv)
                in Hrun;
              injection Hrun as <-; exists o', h', l', c', v';
              repeat split; reflexivity).
    all: exfalso; revert Hrun;
      destruct (loadline_prefix p _ self _ _ _ _ _ _ _ Hnull Hd Hdt Ho Hh Hl
                  Hc Ha) as (k & -> & ->);
      fold v; subst c adj factor; unfold round_price in *;
      destruct (swapcloses p); cbv zeta beta iota;
      rewrite bind_lift, (truediv_Ok _ _ Hadj), bind_lift;
      (destruct (adjclose p);
       [ rewrite !(truediv_Ok _ _ (Hfac eq_refl)) | ]);
      cbn [mbind result_bind rbind andb] in *;
      destruct (round p);
      repeat first [ rewrite bind_lift | rewrite Ro | rewrite Rh | rewrite Rl
                   | rewrite Rc | rewrite Rv
                   | progress cbn [mbind result_bind rbind] ];
      try discriminate; congruence.
  - exfalso.
    destruct (loadline_prefix p _ self _ _ _ _ _ _ _ Hnull Hd Hdt Ho Hh Hl Hc Ha)
      as (k & Hk & ->).
    rewrite Hk in Hrun. subst c adj.
    destruct (swapcloses p); cbv zeta beta iota in Hrun;
      rewrite bind_lift, Efac in Hrun; discriminate Hrun.
Qed.

(** C1, as the code has it: when [adjclose] is set, a line whose fields
    parse to [o], [h], [l], a close [c] and a non-zero adjusted close [adj]
    (the two closes taken after the optional swap) has the adjustment
    factor [c / adj].  When the factor is not zero, open, high and low are
    divided by it, the close is [adj], and the volume is multiplied by it
    when [adjvolume] is set: these are the values the rounding step
    receives.  When the factor is zero (a zero close, or a quotient too
    small for a float), the division of the open raises and no price is
    stored. *)
Theorem loadline_adjclose p linetokens self dttxt dt o h l c0 a0 :
  nullseen linetokens = false ->
  list_getitem linetokens 0 = Ok dttxt ->
  date_of_text dttxt = Ok dt ->
  float_at linetokens 1 = Ok o ->
  float_at linetokens 2 = Ok h ->
  float_at linetokens 3 = Ok l ->
  float_at linetokens 4 = Ok c0 ->
  float_at linetokens 5 = Ok a0 ->
  let v := match float_at linetokens 6 with
           | Ok v => v
           | Raise _ => 0%float
           end in
  let c := if swapcloses p then a0 else c0 in
  let adj := if swapcloses p then c0 else a0 in
  let adjustment_factor := (c / adj)%float in
  (adj =? 0)%float = false ->
  adjclose p = true ->
  (forall o' h' l' c' v',
      (adjustment_factor =? 0)%float = false ->
      round_price p (o / adjustment_factor) = Ok o' ->
      round_price p (h / adjustment_factor) = Ok h' ->
      round_price p (l / adjustment_factor) = Ok l' ->
      round_price p adj = Ok c' ->
      Py.round (if adjvolume p then v * adjustment_factor else v)
               (index (roundvolume p)) = Ok v' ->
      _loadline p linetokens self
      = (Ok true,
         {| f := f self;
            lines := loaded_lines (date2num (combine dt (sessionend p)))
                                  o' h' l' c' v' adj (lines self) |}))
  /\ ((adjustment_factor =? 0)%float = true ->
      _loadline p linetokens self
      = (Raise ZeroDivisionError,
         {| f := f self;
            lines := started_lines (date2num (combine dt (sessionend p)))
                                   (lines self) |})).
Proof.
  intros Hnull Hd Hdt Ho Hh Hl Hc Ha v c adj factor Hadj Hadjc. split.
  - intros o' h' l' c' v' Hfac Ro Rh Rl Rc Rv.
    apply (loadline_values p linetokens self dttxt dt o h l c0 a0 o' h' l' c' v'
             Hnull Hd Hdt Ho Hh Hl Hc Ha Hadj (fun _ => Hfac));
      rewrite Hadjc; assumption.
  - intros Hfac.
    exact (loadline_zero_factor p linetokens self dttxt dt o h l c0 a0 Hnull
             Hd Hdt Ho Hh Hl Hc Ha Hadj Hadjc Hfac).
Qed.

(** C2: a line whose adjusted close parses to a zero (of either sign) is
    rejected with a division error: [_loadline] raises, which is neither
    the [False] it returns when the lines are exhausted nor a skip to the
    next line ([f] is left as it was), and no price, volume or adjusted
    close is stored.  The adjusted close is the column the parser takes for
    it: column 5, or column 4 when [swapcloses] is set. *)
Theorem loadline_zero_adjusted_close p linetokens self dttxt dt o h l c0 a0 :
  nullseen linetokens = false ->
  list_getitem linetokens 0 = Ok dttxt ->
  date_of_text dttxt = Ok dt ->
  float_at linetokens 1 = Ok o ->
  float_at linetokens 2 = Ok h ->
  float_at linetokens 3 = Ok l ->
  float_at linetokens 4 = Ok c0 ->
  float_at linetokens 5 = Ok a0 ->
  let adj := if swapcloses p then c0 else a0 in
  (adj =? 0)%float = true ->
  _loadline p linetokens self
  = (Raise ZeroDivisionError,
     {| f := f self;
        lines := started_lines (date2num (combine dt (sessionend p)))
                               (lines self) |}).
Proof.
  intros Hnull Hd Hdt Ho Hh Hl Hc Ha adj Hadj.
  destruct (loadline_prefix p _ self _ _ _ _ _ _ _ Hnull Hd Hdt Ho Hh Hl Hc Ha)
    as (k & -> & ->).
  subst adj.
  destruct (swapcloses p); cbv zeta beta iota;
    rewrite bind_lift, (truediv_Raise _ _ Hadj); reflexivity.
Qed.

(** ** The null-resolution loop *)

Lemma nullseen_In linetokens :
  nullseen linetokens = true <-> In "null"%string (tail linetokens).
Proof.
  unfold nullseen. rewrite existsb_exists. split.
  - intros (tok & Hin & Heq). apply String.eqb_eq in Heq. now subst.
  - intros Hin. exists "null"%string. split; [assumption | reflexivity].
Qed.

Lemma nullseen_not_In linetokens :
  nullseen linetokens = false <-> ~ In "null"%string (tail linetokens).
Proof.
  rewrite <- nullseen_In. destruct (nullseen linetokens); split; intros;
    congruence.
Qed.

(** One turn of the loop: the refetch is a call of [_getnextline]. *)
Lemma scan_refetch self linetokens :
  nullseen linetokens = true ->
  _loadline_scan (f self) linetokens
  = match _getnextline self with
    | (Ok (Some (tok :: toks)), self') => _loadline_scan (f self') (tok :: toks)
    | (_, self') => (None, f self')
    end.
Proof.
  intros E. unfold _getnextline.
  destruct (f self) as [|[|tok toks] rest] eqn:Ef; simpl; rewrite E;
    try rewrite Ef; reflexivity.
Qed.

(** Lines with a null token are passed over, up to the first line free of
    them. *)
Lemma scan_skips nulls : forall linetokens next rest,
  nullseen linetokens = true ->
  Forall (fun l => nullseen l = true) nulls ->
  nullseen next = false -> next <> [] ->
  _loadline_scan (nulls ++ next :: rest) linetokens = (Some next, rest).
Proof.
  induction nulls as [|l nulls IH]; intros linetokens next rest E Hnulls En Hne.
  - simpl. rewrite E. destruct next as [|tok toks]; [congruence|].
    apply scan_no_null, En.
  - apply Forall_cons_1 in Hnulls as [El Hnulls].
    simpl. rewrite E. destruct l as [|tok toks]; [discriminate El|].
    apply IH; assumption.
Qed.

(** When only such lines are left, the loop runs the source dry. *)
Lemma scan_exhausts nulls : forall linetokens,
  nullseen linetokens = true ->
  Forall (fun l => nullseen l = true) nulls ->
  _loadline_scan nulls linetokens = (None, []).
Proof.
  induction nulls as [|l nulls IH]; intros linetokens E Hnulls.
  - simpl. rewrite E. reflexivity.
  - apply Forall_cons_1 in Hnulls as [El Hnulls].
    simpl. rewrite E. destruct l as [|tok toks]; [discriminate El|].
    apply IH; assumption.
Qed.

(** C3: a line with the null marker among the tokens after the date is
    dropped and the next line fetched, again and again until a line without
    the marker comes.  That line is loaded exactly as if it had been the
    line handed in, with the source past it: the statements after the loop
    run on it, and when its fields parse (with divisors that are not zero)
    its bar is stored and [True] returned.  When the source runs out first,
    [_loadline] returns [False]: nothing is raised and no line buffer is
    written. *)
Theorem loadline_null_resolution p linetokens nulls before :
  In "null"%string (tail linetokens) ->
  Forall (fun l => In "null"%string (tail l)) nulls ->
  (forall next rest,
      ~ In "null"%string (tail next) -> next <> [] ->
      _loadline p linetokens {| f := nulls ++ next :: rest; lines := before |}
      = _loadline p next {| f := rest; lines := before |}
      /\ _loadline p linetokens {| f := nulls ++ next :: rest; lines := before |}
         = _loadline_fields p next {| f := rest; lines := before |}
      /\ forall dttxt dt o h l c0 a0 o' h' l' c' v',
           list_getitem next 0 = Ok dttxt ->
           date_of_text dttxt = Ok dt ->
           float_at next 1 = Ok o ->
           float_at next 2 = Ok h ->
           float_at next 3 = Ok l ->
           float_at next 4 = Ok c0 ->
           float_at next 5 = Ok a0 ->
           let v := match float_at next 6 with
                    | Ok v => v
                    | Raise _ => 0%float
                    end in
           let c := if swapcloses p then a0 else c0 in
           let adj := if swapcloses p then c0 else a0 in
           let factor := (c / adj)%float in
           (adj =? 0)%float = false ->
           (adjclose p = true -> (factor =? 0)%float = false) ->
           round_price p (if adjclose p then o / factor else o) = Ok o' ->
           round_price p (if adjclose p then h / factor else h) = Ok h' ->
           round_price p (if adjclose p then l / factor else l) = Ok l' ->
           round_price p (if adjclose p then adj else c) = Ok c' ->
           Py.round (if adjclose p && adjvolume p then v * factor else v)
                    (index (roundvolume p)) = Ok v' ->
           _loadline p linetokens
             {| f := nulls ++ next :: rest; lines := before |}
           = (Ok true,
              {| f := rest;
                 lines := loaded_lines (date2num (combine dt (sessionend p)))
                                       o' h' l' c' v' adj before |}))
  /\ _loadline p linetokens {| f := nulls; lines := before |}
     = (Ok false, {| f := []; lines := before |}).
Proof.
  intros E Hnulls.
  apply nullseen_In in E.
  assert (Hnulls' : Forall (fun l => nullseen l = true) nulls).
  { eapply Forall_impl; [exact Hnulls|]. intros l. apply nullseen_In. }
  split.
  - intros next rest En Hne. apply nullseen_not_In in En.
    assert (Hdirect :
      _loadline p linetokens {| f := nulls ++ next :: rest; lines := before |}
      = _loadline p next {| f := rest; lines := before |}).
    { unfold _loadline; cbn [f lines].
      rewrite (scan_skips _ _ _ _ E Hnulls' En Hne), (scan_no_null _ _ En).
      reflexivity. }
    split; [exact Hdirect|]. split.
    + unfold _loadline; cbn [f lines].
      rewrite (scan_skips _ _ _ _ E Hnulls' En Hne). reflexivity.
    + intros dttxt dt o h l c0 a0 o' h' l' c' v' Hd Hdt Ho Hh Hl Hc Ha
             v c adj factor Hadj Hfac Ro Rh Rl Rc Rv.
      rewrite Hdirect.
      exact (loadline_values p next {| f := rest; lines := before |} dttxt dt
               o h l c0 a0 o' h' l' c' v' En Hd Hdt Ho Hh Hl Hc Ha Hadj Hfac
               Ro Rh Rl Rc Rv).
  - unfold _loadline; cbn [f lines].
    rewrite (scan_exhausts _ _ E Hnulls'). reflexivity.
Qed.

(** ** The volume column *)

(** C4, on the code: a line whose only null token is the volume is caught by
    the loop over [linetokens[1:]] like any other and dropped, so the
    [except] clause written for a null volume never sees it.  With nothing
    left to fetch [_loadline] returns [False] and stores no bar; with a line
    left, that line is loaded in its place. *)
Theorem loadline_null_volume_discarded p d o h l c a more before :
  _loadline p (d :: o :: h :: l :: c :: a :: "null"%string :: more)
            {| f := []; lines := before |}
  = (Ok false, {| f := []; lines := before |})
  /\ forall tok toks rest,
       _loadline p (d :: o :: h :: l :: c :: a :: "null"%string :: more)
                 {| f := (tok :: toks) :: rest; lines := before |}
       = _loadline p (tok :: toks) {| f := rest; lines := before |}.
Proof.
  assert (E : nullseen (d :: o :: h :: l :: c :: a :: "null"%string :: more)
              = true).
  { apply nullseen_In. simpl. tauto. }
  split.
  - unfold _loadline; cbn [f lines]. simpl. rewrite E. reflexivity.
  - intros tok toks rest. unfold _loadline; cbn [f lines].
    cbn [_loadline_scan]. rewrite E. reflexivity.
Qed.

(** ** Rounding *)

(** Run the statements of a command found in hypothesis [H], splitting on
    every division and rounding met on the way. *)
Ltac exec_in H :=
  repeat first
    [ rewrite bind_lift in H
    | rewrite bind_setline in H
    | progress cbn [mbind result_bind rbind mret M_ret result_ret] in H
    | discriminate H
    | match type of H with
      | context [truediv ?a ?b] =>
          unfold truediv in H; destruct (b =? 0)%float eqn:?
      | context [if (?b =? 0)%float then _ else _] =>
          destruct (b =? 0)%float eqn:?
      | context [Py.round ?x ?n] => destruct (Py.round x n) eqn:?
      end ].

(** C5, as the code has it: on every line that loads, the volume is rounded
    to [roundvolume] decimals whatever the [round] flag says.  The flag
    governs the four prices only: with [round] off they are stored as the
    adjustment step left them, with [round] on each is rounded to
    [decimals] places.  The default [roundvolume], [False], counts as 0
    decimals. *)
Theorem loadline_volume_rounding p linetokens self self' dttxt dt o h l c0 a0 :
  nullseen linetokens = false ->
  list_getitem linetokens 0 = Ok dttxt ->
  date_of_text dttxt = Ok dt ->
  float_at linetokens 1 = Ok o ->
  float_at linetokens 2 = Ok h ->
  float_at linetokens 3 = Ok l ->
  float_at linetokens 4 = Ok c0 ->
  float_at linetokens 5 = Ok a0 ->
  _loadline p linetokens self = (Ok true, self') ->
  let v := match float_at linetokens 6 with
           | Ok v => v
           | Raise _ => 0%float
           end in
  let c := if swapcloses p then a0 else c0 in
  let adj := if swapcloses p then c0 else a0 in
  let adjusted :=
    if adjclose p && adjvolume p then (v * (c / adj))%float else v in
  let open_ := if adjclose p then (o / (c / adj))%float else o in
  let high_ := if adjclose p then (h / (c / adj))%float else h in
  let low_ := if adjclose p then (l / (c / adj))%float else l in
  let close_ := if adjclose p then adj else c in
  (exists v', Py.round adjusted (index (roundvolume p)) = Ok v'
              /\ lines self' !! "volume"%string = Some (VFloat v'))
  /\ index (roundvolume default_params) = 0
  /\ (round p = false ->
      lines self' !! "open"%string = Some (VFloat open_)
      /\ lines self' !! "high"%string = Some (VFloat high_)
      /\ lines self' !! "low"%string = Some (VFloat low_)
      /\ lines self' !! "close"%string = Some (VFloat close_))
  /\ (round p = true ->
      exists o' h' l' c',
        Py.round open_ (index (decimals p)) = Ok o'
        /\ Py.round high_ (index (decimals p)) = Ok h'
        /\ Py.round low_ (index (decimals p)) = Ok l'
        /\ Py.round close_ (index (decimals p)) = Ok c'
        /\ lines self' !! "open"%string = Some (VFloat o')
        /\ lines self' !! "high"%string = Some (VFloat h')
        /\ lines self' !! "low"%string = Some (VFloat l')
        /\ lines self' !! "close"%string = Some (VFloat c')).
Proof.
  intros Hnull Hd Hdt Ho Hh Hl Hc Ha Hrun v c adj adjusted open_ high_ low_
         close_.
  destruct (loadline_true_inv p linetokens self self' dttxt dt o h l c0 a0
              Hnull Hd Hdt Ho Hh Hl Hc Ha Hrun)
    as (o' & h' & l' & c' & v' & Ro & Rh & Rl & Rc & Rv & ->).
  fold v c adj in Ro, Rh, Rl, Rc, Rv.
  fold open_ in Ro. fold high_ in Rh. fold low_ in Rl. fold close_ in Rc.
  fold adjusted in Rv.
  assert (Lv : loaded_lines (date2num (combine dt (sessionend p)))
                 o' h' l' c' v' adj (lines self) !! "volume"%string
               = Some (VFloat v')).
  { unfold loaded_lines. rewrite lookup_insert_ne by discriminate.
    apply lookup_insert_eq. }
  assert (Lo : loaded_lines (date2num (combine dt (sessionend p)))
                 o' h' l' c' v' adj (lines self) !! "open"%string
               = Some (VFloat o')).
  { unfold loaded_lines. do 5 (rewrite lookup_insert_ne by discriminate).
    apply lookup_insert_eq. }
  assert (Lh : loaded_lines (date2num (combine dt (sessionend p)))
                 o' h' l' c' v' adj (lines self) !! "high"%string
               = Some (VFloat h')).
  { unfold loaded_lines. do 4 (rewrite lookup_insert_ne by discriminate).
    apply lookup_insert_eq. }
  assert (Ll : loaded_lines (date2num (combine dt (sessionend p)))
                 o' h' l' c' v' adj (lines self) !! "low"%string
               = Some (VFloat l')).
  { unfold loaded_lines. do 3 (rewrite lookup_insert_ne by discriminate).
    apply lookup_insert_eq. }
  assert (Lc : loaded_lines (date2num (combine dt (sessionend p)))
                 o' h' l' c' v' adj (lines self) !! "close"%string
               = Some (VFloat c')).
  { unfold loaded_lines. do 2 (rewrite lookup_insert_ne by discriminate).
    apply lookup_insert_eq. }
  cbn [lines]. unfold round_price in Ro, Rh, Rl, Rc.
  split; [exists v'; split; [exact Rv | exact Lv]|].
  split; [reflexivity|]. split.
  - intros Hround. rewrite Hround in Ro, Rh, Rl, Rc.
    injection Ro as <-. injection Rh as <-. injection Rl as <-.
    injection Rc as <-. auto.
  - intros Hround. rewrite Hround in Ro, Rh, Rl, Rc.
    exists o', h', l', c'. repeat split; assumption.
Qed.

(** ** Exchanged closes *)

Lemma float_at_line d o h l c a more :
  list_getitem (d :: o :: h :: l :: c :: a :: more) 0 = Ok d
  /\ float_at (d :: o :: h :: l :: c :: a :: more) 1 = float_of_string o
  /\ float_at (d :: o :: h :: l :: c :: a :: more) 2 = float_of_string h
  /\ float_at (d :: o :: h :: l :: c :: a :: more) 3 = float_of_string l
  /\ float_at (d :: o :: h :: l :: c :: a :: more) 4 = float_of_string c
  /\ float_at (d :: o :: h :: l :: c :: a :: more) 5 = float_of_string a
  /\ float_at (d :: o :: h :: l :: c :: a :: more) 6 = float_at more 0.
Proof. repeat split; reflexivity. Qed.

(** C8: a line with the close and adjusted-close columns exchanged, parsed
    with [swapcloses] set, is loaded exactly as the original line is with
    [swapcloses] off: the swap undoes the exchange, and the factor, the
    scaling and the rounding see the same pair. *)
Theorem swapcloses_exchange p d o h l c a more self x y :
  ~ In "null"%string (o :: h :: l :: c :: a :: more) ->
  float_of_string c = Ok x ->
  float_of_string a = Ok y ->
  _loadline (with_swapcloses true p) (d :: o :: h :: l :: a :: c :: more) self
  = _loadline (with_swapcloses false p) (d :: o :: h :: l :: c :: a :: more) self.
Proof.
  intros Hnull Hc Ha.
  assert (E1 : nullseen (d :: o :: h :: l :: c :: a :: more) = false).
  { apply nullseen_not_In. exact Hnull. }
  assert (E2 : nullseen (d :: o :: h :: l :: a :: c :: more) = false).
  { apply nullseen_not_In. simpl in *. tauto. }
  unfold _loadline. rewrite (scan_no_null _ _ E1), (scan_no_null _ _ E2).
  unfold _loadline_fields.
  destruct (float_at_line d o h l c a more) as (-> & -> & -> & -> & -> & -> & ->).
  destruct (float_at_line d o h l a c more) as (-> & -> & -> & -> & -> & -> & ->).
  rewrite !bind_lift.
  destruct (date_of_text d); [|reflexivity].
  rewrite !bind_setline, !bind_lift.
  destruct (float_of_string o); [|reflexivity]. rewrite !bind_lift.
  destruct (float_of_string h); [|reflexivity]. rewrite !bind_lift.
  destruct (float_of_string l); [|reflexivity]. rewrite !bind_lift.
  repeat first [rewrite Hc | rewrite Ha | rewrite bind_setline
               | rewrite bind_lift].
  reflexivity.
Qed.

End Parser.

(** Scenario B of the specification: the line
    [2020-01-02,100,105,95,102,51,2000000] under the default parameters. *)
Lemma loadline_adjclose_scenario :
  truediv 102 51 = Ok 2%float
  /\ _loadline (H := Utc.host) default_params
       ["2020-01-02"; "100"; "105"; "95"; "102"; "51"; "2000000"]%string
       {| f := []; lines := ∅ |}
     = (Ok true,
        {| f := [];
           lines := loaded_lines
                      (Utc.utc_date2num
                         (combine {| year := 2020; month := 1; day := 2 |}
                                  (sessionend default_params)))
                      50 52.5 47.5 51 4000000 51 ∅ |}).
Proof.
  split; [reflexivity|].
  destruct (loadline_adjclose (H := Utc.host) default_params
              ["2020-01-02"; "100"; "105"; "95"; "102"; "51"; "2000000"]%string
              {| f := []; lines := ∅ |} "2020-01-02"
              {| year := 2020; month := 1; day := 2 |}
              100 105 95 102 51) as [Hbar _]; [vm_compute; reflexivity ..|].
  apply (Hbar 50 52.5 47.5 51 4000000)%float; vm_compute; reflexivity.
Defined.

(** C1, as the claim has it, fails: on the line
    [2020-01-02,100,105,95,0,51,2000000] every field parses, the adjusted
    close is 51, not zero, and [adjclose] is set; the factor is 0 / 51 = 0,
    the open cannot be divided by it, and [_loadline] raises instead of
    storing a bar. *)
Lemma loadline_adjclose_zero_close :
  let line := ["2020-01-02"; "100"; "105"; "95"; "0"; "51"; "2000000"]%string in
  let run := _loadline (H := Utc.host) default_params line
               {| f := []; lines := ∅ |} in
  float_at line 1 = Ok 100%float
  /\ float_at line 4 = Ok 0%float
  /\ float_at line 5 = Ok 51%float
  /\ adjclose default_params = true
  /\ truediv 0 51 = Ok 0%float
  /\ truediv 100 0 = Raise ZeroDivisionError
  /\ fst run = Raise ZeroDivisionError
  /\ fst run <> Ok true
  /\ lines (snd run) !! "open"%string = None.
Proof.
  cbv zeta. repeat split; try (vm_compute; reflexivity).
  vm_compute. discriminate.
Qed.


(** Scenario A of the specification: the adjusted close equals the close
    and the line is stored as it is. *)
Example loadline_scenario_A :
  _loadline (H := Utc.host) default_params
    ["2020-01-02"; "100"; "105"; "95"; "102"; "102"; "1000000"]%string
    {| f := []; lines := ∅ |}
  = (Ok true,
     {| f := [];
        lines := loaded_lines
                   (Utc.utc_date2num
                      (combine {| year := 2020; month := 1; day := 2 |}
                               (sessionend default_params)))
                   100 105 95 102 1000000 102 ∅ |}).
Proof. vm_compute; reflexivity. Qed.

(** A zero adjusted close under the default parameters. *)
Lemma loadline_zero_adjusted_close_sample :
  float_at ["2020-01-02"; "100"; "105"; "95"; "102"; "0"; "1000000"]%string 5
  = Ok 0%float
  /\ _loadline (H := Utc.host) default_params
       ["2020-01-02"; "100"; "105"; "95"; "102"; "0"; "1000000"]%string
       {| f := []; lines := ∅ |}
     = (Raise ZeroDivisionError,
        {| f := [];
           lines := started_lines
                      (Utc.utc_date2num
                         (combine {| year := 2020; month := 1; day := 2 |}
                                  (sessionend default_params))) ∅ |}).
Proof.
  split; [reflexivity|].
  apply (loadline_zero_adjusted_close (H := Utc.host) default_params
           ["2020-01-02"; "100"; "105"; "95"; "102"; "0"; "1000000"]%string
           {| f := []; lines := ∅ |} "2020-01-02"
           {| year := 2020; month := 1; day := 2 |} 100 105 95 102 0);
    vm_compute; reflexivity.
Defined.

(** Two lines with nulls, then scenario B's line, which is loaded with the
    source at its end; and the same without it. *)
Lemma loadline_null_resolution_sample :
  _loadline (H := Utc.host) default_params
    ["2020-01-01"; "null"; "null"; "null"; "null"; "null"; "null"]%string
    {| f := [ ["2020-01-01"; "100"; "105"; "95"; "null"; "51"; "7"];
              ["2020-01-02"; "100"; "105"; "95"; "102"; "51"; "2000000"] ]%string;
       lines := ∅ |}
  = (Ok true,
     {| f := [];
        lines := loaded_lines
                   (Utc.utc_date2num
                      (combine {| year := 2020; month := 1; day := 2 |}
                               (sessionend default_params)))
                   50 52.5 47.5 51 4000000 51 ∅ |})
  /\ _loadline (H := Utc.host) default_params
       ["2020-01-01"; "null"; "null"; "null"; "null"; "null"; "null"]%string
       {| f := [ ["2020-01-01"; "100"; "105"; "95"; "null"; "51"; "7"] ]%string;
          lines := ∅ |}
     = (Ok false, {| f := []; lines := ∅ |}).
Proof.
  destruct (loadline_null_resolution (H := Utc.host) default_params
              ["2020-01-01"; "null"; "null"; "null"; "null"; "null"; "null"]%string
              [ ["2020-01-01"; "100"; "105"; "95"; "null"; "51"; "7"]%string ]
              ∅) as [Hnext Hdry].
  - simpl. tauto.
  - constructor; [simpl; tauto | constructor].
  - split; [|exact Hdry].
    destruct (Hnext ["2020-01-02"; "100"; "105"; "95"; "102"; "51"; "2000000"]%string
                    []) as (_ & _ & Hbar).
    + simpl. intuition discriminate.
    + discriminate.
    + apply (Hbar "2020-01-02"%string {| year := 2020; month := 1; day := 2 |}
                  100 105 95 102 51 50 52.5 47.5 51 4000000)%float;
        first [ discriminate | vm_compute; reflexivity ].
Defined.

(** C5, as the claim has it, fails: with [round] off and a volume of
    1000.75 on the line, the stored volume is 1001, not 1000.75. *)
Lemma volume_rounded_with_round_off :
  let p := with_round false default_params in
  let line := ["2020-01-02"; "100"; "105"; "95"; "102"; "102"; "1000.75"]%string in
  let run := _loadline (H := Utc.host) p line {| f := []; lines := ∅ |} in
  round p = false
  /\ float_at line 6 = Ok 1000.75%float
  /\ fst run = Ok true
  /\ lines (snd run) !! "volume"%string = Some (VFloat 1001)
  /\ lines (snd run) !! "volume"%string <> Some (VFloat 1000.75).
Proof.
  cbv zeta. repeat split; try (vm_compute; reflexivity).
  intros E.
  apply (f_equal (fun stored => match stored with
                                | Some (VFloat x) => (x =? 1001)%float
                                | _ => false
                                end)) in E.
  vm_compute in E. discriminate E.
Qed.

(** The same line, as [loadline_volume_rounding] sees it: the volume is
    rounded, the prices are not. *)
Lemma loadline_volume_rounding_sample :
  let self' := snd (_loadline (H := Utc.host)
                      (with_round false default_params)
                      ["2020-01-02"; "100.125"; "105"; "95"; "102"; "102";
                       "1000.75"]%string
                      {| f := []; lines := ∅ |}) in
  (exists v', Py.round 1000.75 0 = Ok v'
              /\ lines self' !! "volume"%string = Some (VFloat v'))
  /\ lines self' !! "open"%string = Some (VFloat (100.125 / (102 / 102))).
Proof.
  cbv zeta.
  destruct (loadline_volume_rounding (H := Utc.host)
              (with_round false default_params)
              ["2020-01-02"; "100.125"; "105"; "95"; "102"; "102"; "1000.75"]%string
              {| f := []; lines := ∅ |}
              (snd (_loadline (H := Utc.host)
                      (with_round false default_params)
                      ["2020-01-02"; "100.125"; "105"; "95"; "102"; "102";
                       "1000.75"]%string
                      {| f := []; lines := ∅ |}))
              "2020-01-02"
              {| year := 2020; month := 1; day := 2 |} 100.125 105 95 102 102)
    as (Hv & _ & Hoff & _); try (vm_compute; reflexivity).
  split; [exact Hv|]. exact (proj1 (Hoff eq_refl)).
Defined.

(** A volume that is neither a number nor the null marker is taken as 0.0
    and the line is kept. *)
Example loadline_unparsable_volume :
  let run := _loadline (H := Utc.host) default_params
               ["2020-01-02"; "100"; "105"; "95"; "102"; "102"; "n/a"]%string
               {| f := []; lines := ∅ |} in
  fst run = Ok true
  /\ lines (snd run) !! "volume"%string = Some (VFloat 0)
  /\ lines (snd run) !! "close"%string = Some (VFloat 102).
Proof. cbv zeta. repeat split; vm_compute; reflexivity. Qed.

(** Scenario B's line with its two closes exchanged. *)
Lemma swapcloses_exchange_sample :
  _loadline (H := Utc.host) (with_swapcloses true default_params)
    ["2020-01-02"; "100"; "105"; "95"; "51"; "102"; "2000000"]%string
    {| f := []; lines := ∅ |}
  = _loadline (H := Utc.host) (with_swapcloses false default_params)
      ["2020-01-02"; "100"; "105"; "95"; "102"; "51"; "2000000"]%string
      {| f := []; lines := ∅ |}.
Proof.
  apply (swapcloses_exchange (H := Utc.host) default_params "2020-01-02"
           "100" "105" "95" "102" "51" ["2000000"]%string
           {| f := []; lines := ∅ |} 102 51).
  - simpl. intuition discriminate.
  - vm_compute; reflexivity.
  - vm_compute; reflexivity.
Defined.

End CSVAdjustmentParser.

(* ===================================================================== *)
(** * The API bar normaliser *)
(* ===================================================================== *)

Module APIBarNormalizer.
Import YahooFetcher.

Section Normalizer.
Context `{Host}.

(** ** Subscripts *)

Lemma get_getitem_key v k dflt x :
  getitem_key v k = Ok x -> get v k dflt = Ok x.
Proof.
  destruct v; try discriminate. simpl.
  destruct (dict_find k d); [intros [= ->]; reflexivity | discriminate].
Qed.

Lemma contains_getitem_key v k x :
  getitem_key v k = Ok x -> contains v k = Ok true.
Proof.
  destruct v; try discriminate. simpl.
  destruct (dict_find k d); [reflexivity | discriminate].
Qed.

Lemma quote_at_nth ohlcv k xs (i : nat) :
  getitem_key ohlcv k = Ok (VList xs) -> (i < length xs)%nat ->
  quote_at ohlcv k (Z.of_nat i) = Ok (nth i xs VNone).
Proof.
  intros Hk Hi. unfold quote_at. rewrite Hk. simpl.
  apply list_getitem_nth, Hi.
Qed.

(** ** The loop over the timestamps *)

Section Loop.
Variables (ohlcv : value) (tss os hs ls cs vs : list value).
Variable dts : list datetime.
Hypothesis Hopen : getitem_key ohlcv "open" = Ok (VList os).
Hypothesis Hhigh : getitem_key ohlcv "high" = Ok (VList hs).
Hypothesis Hlow : getitem_key ohlcv "low" = Ok (VList ls).
Hypothesis Hclose : getitem_key ohlcv "close" = Ok (VList cs).
Hypothesis Hvolume : getitem_key ohlcv "volume" = Ok (VList vs).
Hypothesis Los : length os = length tss.
Hypothesis Lhs : length hs = length tss.
Hypothesis Lls : length ls = length tss.
Hypothesis Lcs : length cs = length tss.
Hypothesis Lvs : length vs = length tss.
Hypothesis Hdts : forall k ts,
  tss !! k = Some ts -> complete os hs ls cs k = true ->
  fromtimestamp ts = Ok (nth k dts epoch).

Lemma any_None_complete (i : nat) :
  (i < length tss)%nat ->
  any_None ohlcv (Z.of_nat i) ["open"; "high"; "low"; "close"]%string
  = Ok (negb (complete os hs ls cs i)).
Proof.
  intros Hi. unfold any_None, complete.
  rewrite (quote_at_nth _ _ _ _ Hopen), (quote_at_nth _ _ _ _ Hhigh),
    (quote_at_nth _ _ _ _ Hlow), (quote_at_nth _ _ _ _ Hclose) by lia.
  cbn [mbind result_bind rbind].
  destruct (is_None (nth i os VNone)), (is_None (nth i hs VNone)),
    (is_None (nth i ls VNone)), (is_None (nth i cs VNone)); reflexivity.
Qed.

Lemma fetch_data_loop_spec : forall rest i bars,
  drop i tss = rest ->
  fetch_data_loop ohlcv (Z.of_nat i) rest bars
  = Ok (bars ++ map (bar_at dts os hs ls cs vs)
                    (List.filter (complete os hs ls cs) (seq i (length rest)))).
Proof.
  induction rest as [|ts rest IH]; intros i bars Hdrop.
  - simpl. rewrite app_nil_r. reflexivity.
  - assert (Hts : tss !! i = Some ts).
    { rewrite <- (Nat.add_0_r i), <- lookup_drop, Hdrop. reflexivity. }
    assert (Hi : (i < length tss)%nat) by (eapply lookup_lt_Some; eassumption).
    assert (Hrest : drop (S i) tss = rest).
    { replace (S i) with (i + 1)%nat by lia.
      rewrite <- drop_drop, Hdrop. reflexivity. }
    cbn [fetch_data_loop length seq List.filter].
    rewrite (any_None_complete i Hi). cbn [mbind result_bind rbind].
    replace (Z.of_nat i + 1) with (Z.of_nat (S i)) by lia.
    destruct (complete os hs ls cs i) eqn:Hc; cbn [negb].
    + rewrite (Hdts i ts Hts Hc). cbn [mbind result_bind rbind].
      rewrite (quote_at_nth _ _ _ _ Hopen), (quote_at_nth _ _ _ _ Hhigh),
        (quote_at_nth _ _ _ _ Hlow), (quote_at_nth _ _ _ _ Hclose),
        (quote_at_nth _ _ _ _ Hvolume) by lia.
      cbn [mbind result_bind rbind].
      rewrite (IH (S i) _ Hrest), <- app_assoc. reflexivity.
    + apply IH, Hrest.
Qed.

End Loop.

(** ** Order *)

(** The positions a filter keeps come in increasing order. *)
Lemma StronglySorted_filter_seq (keep : nat -> bool) : forall (n i : nat),
  StronglySorted lt (List.filter keep (seq i n)).
Proof.
  induction n as [|n IH]; intros i; cbn [seq List.filter]; [constructor|].
  destruct (keep i); [|apply IH].
  constructor; [apply IH|].
  apply List.Forall_forall. intros k Hk.
  apply filter_In in Hk as [Hk _]. apply in_seq in Hk. lia.
Qed.

(** A map that is increasing on the items of a sorted list keeps it
    sorted. *)
Lemma StronglySorted_map_in {A B} (R : A -> A -> Prop) (R' : B -> B -> Prop)
    (g : A -> B) (l : list A) :
  StronglySorted R l ->
  (forall a b, In a l -> In b l -> R a b -> R' (g a) (g b)) ->
  StronglySorted R' (map g l).
Proof.
  induction 1 as [|a l Hl IH Ha]; intros Hg; cbn [map]; constructor.
  - apply IH. intros x y Hx Hy. apply Hg; right; assumption.
  - apply List.Forall_forall. intros y Hy.
    apply in_map_iff in Hy as (x & <- & Hx).
    rewrite List.Forall_forall in Ha.
    apply Hg; [left; reflexivity | right; exact Hx | apply Ha, Hx].
Qed.

(** ** The normaliser *)

Lemma is_None_false v : is_None v = false <-> v <> VNone.
Proof. destruct v; simpl; split; intros; congruence. Qed.

Lemma complete_spec os hs ls cs k :
  complete os hs ls cs k = true
  <-> nth k os VNone <> VNone /\ nth k hs VNone <> VNone
      /\ nth k ls VNone <> VNone /\ nth k cs VNone <> VNone.
Proof.
  unfold complete. rewrite negb_true_iff, !orb_false_iff, !is_None_false.
  tauto.
Qed.

(** A document whose result has no ["timestamp"] key: the warning is
    printed and a frame without rows comes back, whatever else the result
    holds. *)
Lemma fetch_data_no_timestamp data chart error results result
    symbol start end_ timeframe out :
  getitem_key data "chart" = Ok chart ->
  get chart "error" VNone = Ok error -> truthy error = false ->
  getitem_key chart "result" = Ok results ->
  getitem_index results 0 = Ok result ->
  contains result "timestamp" = Ok false ->
  fetch_data data symbol start end_ timeframe out
  = (Ok (Frame (DataFrame_new ["open"; "high"; "low"; "close"; "volume"]%string)),
     out ++ [("WARNING: No trading data found for " ++ symbol
              ++ " between " ++ str_datetime start
              ++ " and " ++ str_datetime end_ ++ ".")%string]).
Proof.
  intros Hchart Herr Hfalsy Hres Hres0 Hts. unfold fetch_data.
  rewrite bind_lift, (get_getitem_key _ _ _ _ Hchart).
  cbn [mbind result_bind rbind]. rewrite Herr, Hfalsy.
  rewrite bind_lift, Hchart. cbn [mbind result_bind rbind].
  rewrite Hres. cbn [mbind result_bind rbind]. rewrite Hres0.
  rewrite bind_lift, Hts. reflexivity.
Qed.

(** C7, as the code has it: for a chart document whose quote arrays run
    parallel to its timestamp array, [fetch_data] returns the series, under
    the symbol and timeframe it was called with, of the bars of the complete
    positions, in the order of the positions: position [k] gives a bar
    exactly when none of its open, high, low and close is null (only the
    timestamps of these positions are converted); a null volume there is
    stored as 0.0.  The bars carry the timestamps as [fromtimestamp]
    converts them: they are strictly increasing when these conversions
    are, at the positions kept. *)
Theorem fetch_data_skips_incomplete data tss os hs ls cs vs dts
    symbol start end_ timeframe out :
  chart_document data tss os hs ls cs vs ->
  length os = length tss -> length hs = length tss ->
  length ls = length tss -> length cs = length tss ->
  length vs = length tss ->
  (forall k ts,
      tss !! k = Some ts -> complete os hs ls cs k = true ->
      fromtimestamp ts = Ok (nth k dts epoch)) ->
  let retained := List.filter (complete os hs ls cs) (seq 0 (length tss)) in
  let kept := map (bar_at dts os hs ls cs vs) retained in
  fetch_data data symbol start end_ timeframe out
  = (Ok (Series {| bars := kept; symbol := symbol; timeframe := timeframe |}),
     out)
  /\ (forall k, In k retained
                <-> (k < length tss)%nat
                    /\ nth k os VNone <> VNone /\ nth k hs VNone <> VNone
                    /\ nth k ls VNone <> VNone /\ nth k cs VNone <> VNone)
  /\ StronglySorted lt retained
  /\ (forall k, nth k vs VNone = VNone ->
                volume (bar_at dts os hs ls cs vs k) = VFloat 0)
  /\ ((forall j k, In j retained -> In k retained -> (j < k)%nat ->
                   datetime_lt (nth j dts epoch) (nth k dts epoch)) ->
      StronglySorted (fun a b => datetime_lt (timestamp a) (timestamp b)) kept).
Proof.
  intros (chart & error & results & result & indicators & quote & ohlcv
          & Hchart & Herr & Hfalsy & Hres & Hres0 & Hts & Hind & Hquote
          & Hquote0 & Hopen & Hhigh & Hlow & Hclose & Hvolume)
         Los Lhs Lls Lcs Lvs Hdts retained kept.
  split; [|split; [|split; [|split]]].
  - unfold fetch_data.
    rewrite bind_lift, (get_getitem_key _ _ _ _ Hchart).
    cbn [mbind result_bind rbind]. rewrite Herr, Hfalsy.
    rewrite bind_lift, Hchart. cbn [mbind result_bind rbind].
    rewrite Hres. cbn [mbind result_bind rbind]. rewrite Hres0.
    rewrite bind_lift, (contains_getitem_key _ _ _ Hts). cbn [negb].
    rewrite bind_lift, Hts, bind_lift, Hind. cbn [mbind result_bind rbind].
    rewrite Hquote. cbn [mbind result_bind rbind]. rewrite Hquote0.
    rewrite bind_lift. cbn [iter mbind result_bind rbind].
    change 0 with (Z.of_nat 0).
    rewrite (fetch_data_loop_spec ohlcv tss os hs ls cs vs dts Hopen Hhigh
               Hlow Hclose Hvolume Los Lhs Lls Lcs Lvs Hdts tss 0%nat []
               eq_refl).
    reflexivity.
  - intros k. unfold retained.
    rewrite filter_In, in_seq, complete_spec. intuition lia.
  - apply StronglySorted_filter_seq.
  - intros k Hv. unfold bar_at, mkBar. cbn [volume]. rewrite Hv. reflexivity.
  - intros Hinc. unfold kept.
    apply (StronglySorted_map_in lt); [apply StronglySorted_filter_seq|].
    intros j k Hj Hk Hjk. apply Hinc; assumption.
Qed.

End Normalizer.


(** Scenario C of the specification, on a host in the UTC zone: positions 0
    and 2 are kept, in this order, and the null volume of position 2 becomes
    0.0. *)
Lemma fetch_data_scenario_C :
  fetch_data (H := Utc.host) scenario_C "NVDA" (midnight 2020 1 1)
             (midnight 2020 1 31) "1d" []
  = (Ok (Series scenario_C_series), [])
  /\ length (bars scenario_C_series) = 2%nat
  /\ StronglySorted (fun a b => datetime_lt (timestamp a) (timestamp b))
                    (bars scenario_C_series).
Proof.
  destruct (fetch_data_skips_incomplete (H := Utc.host) scenario_C
              [VInt 1; VInt 2; VInt 3]
              [VInt 9; VInt 10; VInt 11] [VInt 11; VInt 12; VInt 13]
              [VInt 8; VInt 9; VInt 10] [VInt 10; VNone; VInt 12]
              [VInt 100; VInt 200; VNone]
              [ {| dt_date := {| year := 1970; month := 1; day := 1 |};
                   dt_time := {| hour := 0; minute := 0; second := 1;
                                 microsecond := 0 |} |};
                epoch;
                {| dt_date := {| year := 1970; month := 1; day := 1 |};
                   dt_time := {| hour := 0; minute := 0; second := 3;
                                 microsecond := 0 |} |} ]
              "NVDA" (midnight 2020 1 1) (midnight 2020 1 31) "1d" [])
    as (Hrun & _ & _ & _ & Hsorted); try reflexivity.
  - unfold chart_document. do 7 eexists. repeat split; reflexivity.
  - intros [|[|[|k]]] ts Hts Hc; try discriminate Hc; try discriminate Hts;
      injection Hts as <-; reflexivity.
  - split; [exact Hrun|]. split; [reflexivity|].
    apply Hsorted. intros j k Hj Hk Hjk. cbn in Hj, Hk.
    destruct Hj as [<-|[<-|[]]], Hk as [<-|[<-|[]]]; try lia.
    reflexivity.
Defined.

(** C7, as the claim has it, fails on the ordering: two timestamps less
    than a microsecond apart are strictly increasing, both positions are
    kept, and the two bars carry the same datetime, a datetime having no
    finer resolution than the microsecond. *)
Lemma fetch_data_order_collapses :
  let run := fetch_data (H := Utc.host) close_timestamps_document "NVDA"
               (midnight 1970 1 1) (midnight 1970 1 2) "1d" [] in
  (0x1p-24 <? 0x1p-23)%float = true
  /\ exists b1 b2,
       fst run = Ok (Series {| bars := [b1; b2]; symbol := "NVDA";
                               timeframe := "1d" |})
       /\ timestamp b1 = timestamp b2
       /\ ~ datetime_lt (timestamp b1) (timestamp b2).
Proof.
  cbv zeta. split; [reflexivity|].
  do 2 eexists. split; [vm_compute; reflexivity|].
  split; [reflexivity|]. cbn [timestamp mkBar]. vm_compute. discriminate.
Qed.

(** C6, on the code: for a result without the ["timestamp"] key the warning
    is printed and what comes back is an empty pandas frame, not the
    [BarSeries] the signature of [fetch_data] announces.  A feed started on
    it gets [False] from its first [_load], the frame having no rows. *)
Theorem fetch_data_without_timestamp :
  fetch_data (H := Utc.host) no_data_document "NVDA" (midnight 2020 1 4)
             (midnight 2020 1 5) "1d" []
  = (Ok (Frame {| columns := ["open"; "high"; "low"; "close"; "volume"]%string;
                  rows := [] |}),
     ["WARNING: No trading data found for NVDA between 2020-01-04 00:00:00 and 2020-01-05 00:00:00."%string])
  /\ (forall s : BarSeries,
        Frame {| columns := ["open"; "high"; "low"; "close"; "volume"]%string;
                 rows := [] |} <> Series s)
  /\ fst (loads (H := Utc.host) 1
            (snd (YahooFinanceData.start
                    {| YahooFinanceData.fetcher :=
                         YahooFinanceData.YahooFetcher_ (H := Utc.host)
                           no_data_document;
                       YahooFinanceData.fromdate := Some (midnight 2020 1 4);
                       YahooFinanceData.todate := Some (midnight 2020 1 5);
                       YahooFinanceData.dataname := "NVDA" |}
                    YahooFinanceData.__init__)))
     = [Ok false].
Proof.
  split; [vm_compute; reflexivity|].
  split; [intros s; discriminate | vm_compute; reflexivity].
Qed.

End APIBarNormalizer.

(* ===================================================================== *)
(** * The bar model *)
(* ===================================================================== *)

Module BarModel.

(** C10: [to_lines] reports the open interest as the constant 0.0, whatever
    the bar's own [openinterest] holds; the timestamp goes through
    [date2num], and open, high, low, close and volume are the bar's
    fields. *)
Theorem to_lines_fields `{Host} (bar : Bar) :
  dict_find "openinterest" (to_lines bar) = Some (VFloat 0)
  /\ dict_find "datetime" (to_lines bar)
     = Some (VFloat (date2num (timestamp bar)))
  /\ dict_find "open" (to_lines bar) = Some (open bar)
  /\ dict_find "high" (to_lines bar) = Some (high bar)
  /\ dict_find "low" (to_lines bar) = Some (low bar)
  /\ dict_find "close" (to_lines bar) = Some (close bar)
  /\ dict_find "volume" (to_lines bar) = Some (volume bar)
  /\ map fst (to_lines bar)
     = ["datetime"; "open"; "high"; "low"; "close"; "volume";
        "openinterest"]%string.
Proof. repeat split; reflexivity. Qed.

(** A bar built with an open interest of 1500 is reported with 0.0. *)
Example to_lines_nonzero_openinterest :
  dict_find "openinterest"
    (to_lines (H := Utc.host)
       {| timestamp := midnight 2020 1 2; open := VFloat 100;
          high := VFloat 105; low := VFloat 95; close := VFloat 102;
          volume := VFloat 1000000; openinterest := VFloat 1500 |})
  = Some (VFloat 0).
Proof. reflexivity. Qed.

End BarModel.

(* ===================================================================== *)
(** * The sequential feed cursor *)
(* ===================================================================== *)

Module SequentialFeedCursor.
Import YahooFetcher YahooFinanceData.

Section Cursor.
Context `{Host}.

Lemma bind_setline_Ok {B} key v x (k : unit -> M feed B) (self : feed) :
  as_double v = Ok x ->
  (setline key v ≫= k) self
  = k tt {| _df := _df self; _bars := _bars self; _idx := _idx self;
            lines := <[key := VFloat x]> (lines self) |}.
Proof.
  intros Hv. unfold mbind, M_bind, setline, lift. rewrite Hv. reflexivity.
Qed.

Lemma bind_setline_Raise {B} key v e (k : unit -> M feed B) (self : feed) :
  as_double v = Raise e -> (setline key v ≫= k) self = (Raise e, self).
Proof.
  intros Hv. unfold mbind, M_bind, setline, lift. rewrite Hv. reflexivity.
Qed.

(** The items of a dict whose values are all numbers are stored one after
    the other. *)
Lemma setlines_run items : forall self : feed,
  Forall (fun kv => is_Ok (as_double (snd kv)) = true) items ->
  setlines items self
  = (Ok tt, {| _df := _df self; _bars := _bars self; _idx := _idx self;
               lines := stored (doubles items) (lines self) |}).
Proof.
  induction items as [|[key v] items IH]; intros self Hall.
  - destruct self. reflexivity.
  - apply Forall_cons_1 in Hall as [Hv Hall]. cbn [snd] in Hv.
    cbn [setlines].
    destruct (as_double v) as [x|e] eqn:Ev; [|discriminate Hv].
    rewrite (bind_setline_Ok _ _ _ _ _ Ev), (IH _ Hall).
    unfold doubles, stored. cbn [map fold_left fst snd _df _bars _idx lines].
    rewrite Ev. reflexivity.
Qed.



(** The lines of a bar whose fields are numbers can all be stored. *)
Lemma to_lines_storable bar :
  real_valued bar = true ->
  Forall (fun kv => is_Ok (as_double (snd kv)) = true) (to_lines bar).
Proof.
  unfold real_valued. cbn [forallb]. rewrite !andb_true_iff.
  intros (Ho & Hh & Hl & Hc & Hv & _).
  unfold to_lines. repeat constructor; assumption.
Qed.

(** A call of [_load] with a bar of numbers still ahead. *)
Lemma load_bar (self : feed) s (k : nat) bar :
  _bars self = Some (Series s) ->
  _idx self = Z.of_nat k - 1 ->
  bars s !! k = Some bar ->
  real_valued bar = true ->
  _load self
  = (Ok true, {| _df := _df self; _bars := _bars self; _idx := Z.of_nat k;
                 lines := stored (doubles (to_lines bar)) (lines self) |}).
Proof.
  intros Hbars Hidx Hbar Hreal.
  pose proof (lookup_lt_Some _ _ _ Hbar) as Hk.
  unfold _load. rewrite bind_modify, bind_self. cbn [_bars _idx].
  rewrite Hbars, Hidx. replace (Z.of_nat k - 1 + 1) with (Z.of_nat k) by lia.
  unfold len, __len__.
  destruct (Z.leb_spec (Z.of_nat (length (bars s))) (Z.of_nat k)); [lia|].
  rewrite bind_lift, (list_getitem_nth _ _ bar Hk).
  rewrite (nth_lookup_Some _ _ _ _ Hbar).
  unfold mbind, M_bind.
  rewrite (setlines_run _ _ (to_lines_storable bar Hreal)).
  reflexivity.
Qed.

(** A call of [_load] past the last bar. *)
Lemma load_exhausted (self : feed) s :
  _bars self = Some (Series s) ->
  Z.of_nat (length (bars s)) - 1 <= _idx self ->
  _load self
  = (Ok false, {| _df := _df self; _bars := _bars self;
                  _idx := _idx self + 1; lines := lines self |}).
Proof.
  intros Hbars Hidx.
  unfold _load. rewrite bind_modify, bind_self. cbn [_bars _idx].
  rewrite Hbars. unfold len, __len__.
  destruct (Z.leb_spec (Z.of_nat (length (bars s))) (_idx self + 1)); [|lia].
  reflexivity.
Qed.

(** ** Calls in a row *)








End Cursor.



End SequentialFeedCursor.

(* ===================================================================== *)
(** * Reversing the CSV file *)
(* ===================================================================== *)

Module CSVReversal.
Import YahooFinanceCSVData StringIO.

Local Open Scope string_scope.

Lemma append_cons c (a b : string) : String c a ++ b = String c (a ++ b).
Proof. reflexivity. Qed.

Lemma append_nil_r (a : string) : a ++ "" = a.
Proof.
  induction a as [|c a IH]; [reflexivity|]. rewrite append_cons, IH.
  reflexivity.
Qed.

Lemma append_assoc (a b c : string) : (a ++ b) ++ c = a ++ (b ++ c).
Proof.
  induction a as [|x a IH]; [reflexivity|]. rewrite !append_cons, IH.
  reflexivity.
Qed.

Lemma plain_app a b : plain (a ++ b) = plain a && plain b.
Proof.
  induction a as [|c a IH]; [reflexivity|].
  rewrite append_cons. cbn [plain]. rewrite IH, !andb_assoc. reflexivity.
Qed.

(** Plain text is written as it is. *)
Lemma translate_plain body rest :
  plain body = true -> translate (body ++ rest) = body ++ translate rest.
Proof.
  induction body as [|c body IH]; [reflexivity|].
  cbn [plain]. rewrite !andb_true_iff, !negb_true_iff.
  intros [[_ Hcr] Hbody]. rewrite !append_cons. cbn [translate].
  rewrite Hcr, IH by assumption. reflexivity.
Qed.

Lemma translate_terminated line : terminated line -> translate line = line.
Proof.
  intros (body & Hbody & ->). rewrite translate_plain by assumption.
  reflexivity.
Qed.

(** The first line read ends at the first line feed. *)
Lemma readlines_line body rest :
  plain body = true ->
  readlines (body ++ String LF rest) = (body ++ String LF "") :: readlines rest.
Proof.
  induction body as [|c body IH]; [reflexivity|].
  cbn [plain]. rewrite !andb_true_iff, !negb_true_iff.
  intros [[Hlf _] Hbody]. rewrite !append_cons. cbn [readlines].
  rewrite Hlf, IH by assumption. reflexivity.
Qed.

(** Writing terminated lines and reading them back gives the same lines. *)
Lemma readlines_writelines file :
  Forall terminated file -> readlines (writelines file) = file.
Proof.
  induction 1 as [|line file (body & Hbody & ->) _ IH]; [reflexivity|].
  cbn [writelines fold_right]. fold (writelines file).
  rewrite translate_terminated by (exists body; auto).
  rewrite append_assoc, append_cons.
  change ("" ++ writelines file) with (writelines file).
  rewrite readlines_line, IH by assumption. reflexivity.
Qed.

(** [appendleft] over the lines builds the deque in reverse order. *)
Lemma appendleft_rev (file dq : list string) :
  fold_left (fun dq line => line :: dq) file dq = (rev file ++ dq)%list.
Proof.
  revert dq. induction file as [|line file IH]; intros dq; [reflexivity|].
  cbn [fold_left rev]. rewrite IH, <- app_assoc. reflexivity.
Qed.

(** X1: on a file whose lines all end with a line feed, [start] with
    [reverse] set replaces the file by one that yields the same lines in
    reverse order; without [reverse] the file is left alone. *)
Theorem start_reverses p file :
  Forall terminated file ->
  start p file = if reverse p then rev file else file.
Proof.
  intros Hfile. unfold start. destruct (reverse p); [|reflexivity].
  cbn [negb]. rewrite appendleft_rev, app_nil_r.
  apply readlines_writelines, Forall_rev, Hfile.
Qed.

(** X2: on such a file, reversing twice gives the file back. *)
Theorem start_twice p file :
  Forall terminated file -> start p (start p file) = file.
Proof.
  intros Hfile.
  assert (Hrev : Forall terminated (rev file)) by apply Forall_rev, Hfile.
  unfold start. destruct (reverse p); [|reflexivity].
  cbn [negb]. rewrite !appendleft_rev, !app_nil_r.
  rewrite (readlines_writelines _ Hrev), rev_involutive.
  apply readlines_writelines, Hfile.
Qed.

(** X3: when the last line of the file has no line feed, the reversed file
    starts with that line run together with the line before it, and so has
    one line fewer. *)
Theorem start_joins_unterminated_line p init prev last :
  reverse p = true ->
  Forall terminated init -> terminated prev -> plain last = true ->
  start p (init ++ [prev; last])%list = (last ++ prev) :: rev init.
Proof.
  intros Hrev Hinit (body & Hbody & ->) Hlast.
  unfold start. rewrite Hrev. cbn [negb].
  rewrite appendleft_rev, app_nil_r, rev_app_distr. cbn [rev app].
  cbn [writelines fold_right]. fold (writelines (rev init)).
  rewrite (translate_terminated (body ++ String LF "")) by (exists body; auto).
  assert (Htr : translate last = last).
  { rewrite <- (append_nil_r last) at 1.
    rewrite translate_plain by assumption. apply append_nil_r. }
  rewrite Htr, (append_assoc body), append_cons.
  change ("" ++ writelines (rev init)) with (writelines (rev init)).
  rewrite <- (append_assoc last body).
  rewrite readlines_line by (rewrite plain_app, Hlast, Hbody; reflexivity).
  rewrite readlines_writelines by apply Forall_rev, Hinit.
  rewrite append_assoc. reflexivity.
Qed.

Ltac terminated_lines :=
  repeat (constructor;
          [eexists; split; [|unfold newline_ended; reflexivity]; reflexivity|]);
  try constructor.

(** A file of three lines, newest first. *)
Lemma start_reverses_sample :
  start (with_reverse true default_params)
    [newline_ended "2020-01-06,3,3,3,3,3,3";
     newline_ended "2020-01-03,2,2,2,2,2,2";
     newline_ended "2020-01-02,1,1,1,1,1,1"]
  = [newline_ended "2020-01-02,1,1,1,1,1,1";
     newline_ended "2020-01-03,2,2,2,2,2,2";
     newline_ended "2020-01-06,3,3,3,3,3,3"].
Proof.
  apply (start_reverses (with_reverse true default_params)
           [newline_ended "2020-01-06,3,3,3,3,3,3";
            newline_ended "2020-01-03,2,2,2,2,2,2";
            newline_ended "2020-01-02,1,1,1,1,1,1"]).
  terminated_lines.
Defined.

Lemma start_twice_sample :
  start (with_reverse true default_params)
    (start (with_reverse true default_params)
       [newline_ended "2020-01-06,3,3,3,3,3,3";
        newline_ended "2020-01-03,2,2,2,2,2,2"])
  = [newline_ended "2020-01-06,3,3,3,3,3,3";
     newline_ended "2020-01-03,2,2,2,2,2,2"].
Proof.
  apply (start_twice (with_reverse true default_params)
           [newline_ended "2020-01-06,3,3,3,3,3,3";
            newline_ended "2020-01-03,2,2,2,2,2,2"]).
  terminated_lines.
Defined.

(** The same three lines, the oldest one without its line feed: the first
    line of the reversed file is two lines of the file glued together. *)
Lemma start_joins_unterminated_line_sample :
  start (with_reverse true default_params)
    [newline_ended "2020-01-06,3,3,3,3,3,3";
     newline_ended "2020-01-03,2,2,2,2,2,2";
     "2020-01-02,1,1,1,1,1,1"]
  = ["2020-01-02,1,1,1,1,1,1" ++ newline_ended "2020-01-03,2,2,2,2,2,2";
     newline_ended "2020-01-06,3,3,3,3,3,3"].
Proof.
  apply (start_joins_unterminated_line (with_reverse true default_params)
           [newline_ended "2020-01-06,3,3,3,3,3,3"]
           (newline_ended "2020-01-03,2,2,2,2,2,2")
           "2020-01-02,1,1,1,1,1,1").
  - reflexivity.
  - terminated_lines.
  - eexists; split; [|unfold newline_ended; reflexivity]; reflexivity.
  - reflexivity.
Defined.

End CSVReversal.

(* ===================================================================== *)
(** * The series as a frame *)
(* ===================================================================== *)

Module SeriesFrame.

(** X4: [to_dataframe] gives the empty five-column frame for a series
    without bars and raises [TypeError] for every other series, before
    pandas is reached: [vars] has nothing to return for a slotted [Bar]. *)
Theorem to_dataframe_needs_empty_series frame_of_records (self : BarSeries) :
  (bars self = [] ->
   to_dataframe frame_of_records self
   = Ok (DataFrame_new ["open"; "high"; "low"; "close"; "volume"]%string))
  /\ (bars self <> [] -> to_dataframe frame_of_records self = Raise TypeError).
Proof.
  unfold to_dataframe. destruct (bars self) as [|bar rest].
  - split; [reflexivity | congruence].
  - split; [discriminate | reflexivity].
Qed.

(** The series of scenario C cannot be turned into a frame. *)
Lemma to_dataframe_scenario_C :
  to_dataframe (fun _ => Ok (DataFrame_new [])) scenario_C_series
  = Raise TypeError.
Proof.
  apply (to_dataframe_needs_empty_series
           (fun _ => Ok (DataFrame_new [])) scenario_C_series).
  discriminate.
Defined.

End SeriesFrame.

(* ===================================================================== *)
(** * The normaliser on unusual documents *)
(* ===================================================================== *)

Module NormalizerEdges.
Import YahooFetcher.

Section Edges.
Context `{Host}.

Lemma list_getitem_beyond {A} (l : list A) (i : nat) :
  (length l <= i)%nat -> list_getitem l (Z.of_nat i) = Raise IndexError.
Proof.
  intros Hi. unfold list_getitem.
  assert (E0 : (Z.of_nat i <? 0) = false) by (apply Z.ltb_ge; lia).
  rewrite E0. cbv zeta. rewrite E0, Nat2Z.id.
  assert (E : nth_error l i = None) by (apply nth_error_None; lia).
  rewrite E. reflexivity.
Qed.

Lemma quote_at_beyond ohlcv k xs (i : nat) :
  getitem_key ohlcv k = Ok (VList xs) -> (length xs <= i)%nat ->
  quote_at ohlcv k (Z.of_nat i) = Raise IndexError.
Proof.
  intros Hk Hi. unfold quote_at. rewrite Hk. simpl.
  apply list_getitem_beyond, Hi.
Qed.

(** The statements of [fetch_data] up to the check for timestamps. *)
Lemma fetch_data_result data chart error results result
    symbol start end_ timeframe out :
  getitem_key data "chart" = Ok chart ->
  get chart "error" VNone = Ok error -> truthy error = false ->
  getitem_key chart "result" = Ok results ->
  getitem_index results 0 = Ok result ->
  exists k,
    fetch_data data symbol start end_ timeframe out = k result out
    /\ k = (fun result =>
        has_timestamp ← lift (contains result "timestamp");
        if negb has_timestamp then
          _ ← print ("WARNING: No trading data found for " ++ symbol
                     ++ " between " ++ str_datetime start
                     ++ " and " ++ str_datetime end_ ++ ".");
          mret (Frame (DataFrame_new
                         ["open"; "high"; "low"; "close"; "volume"]%string))
        else
          timestamps ← lift (getitem_key result "timestamp");
          ohlcv ← lift (indicators ← getitem_key result "indicators";
                        quote ← getitem_key indicators "quote";
                        getitem_index quote 0);
          bars ← lift (items ← iter timestamps;
                       fetch_data_loop ohlcv 0 items []);
          mret (Series {| bars := bars; symbol := symbol;
                          timeframe := timeframe |})).
Proof.
  intros Hchart Herr Hfalsy Hres Hres0. eexists. split; [|reflexivity].
  unfold fetch_data.
  rewrite bind_lift, (APIBarNormalizer.get_getitem_key _ _ _ _ Hchart).
  cbn [mbind result_bind rbind]. rewrite Herr, Hfalsy.
  rewrite bind_lift, Hchart. cbn [mbind result_bind rbind].
  rewrite Hres. cbn [mbind result_bind rbind]. rewrite Hres0.
  reflexivity.
Qed.

(** X5: a document whose error field is set makes [fetch_data] raise
    [ValueError], whatever its result holds, and nothing is printed. *)
Theorem fetch_data_upstream_error data chart error
    symbol start end_ timeframe out :
  getitem_key data "chart" = Ok chart ->
  get chart "error" VNone = Ok error ->
  truthy error = true ->
  fetch_data data symbol start end_ timeframe out = (Raise ValueError, out).
Proof.
  intros Hchart Herr Htruthy. unfold fetch_data.
  rewrite bind_lift, (APIBarNormalizer.get_getitem_key _ _ _ _ Hchart).
  cbn [mbind result_bind rbind]. rewrite Herr, Htruthy. reflexivity.
Qed.

(** X9: a document without a ["chart"] key raises [KeyError]; one whose
    result list is empty raises [IndexError], and one whose result is null
    raises [TypeError].  Nothing is printed and no series comes back. *)
Theorem fetch_data_without_result symbol start end_ timeframe out :
  (forall items,
      dict_find "chart" items = None ->
      fetch_data (VDict items) symbol start end_ timeframe out
      = (Raise KeyError, out))
  /\ (forall data chart error,
        getitem_key data "chart" = Ok chart ->
        get chart "error" VNone = Ok error -> truthy error = false ->
        (getitem_key chart "result" = Ok (VList []) ->
         fetch_data data symbol start end_ timeframe out
         = (Raise IndexError, out))
        /\ (getitem_key chart "result" = Ok VNone ->
            fetch_data data symbol start end_ timeframe out
            = (Raise TypeError, out))).
Proof.
  split.
  - intros items Hnone. unfold fetch_data.
    rewrite bind_lift. cbn [get mbind result_bind rbind]. rewrite Hnone.
    cbn [get dict_find truthy]. rewrite bind_lift.
    cbn [getitem_key mbind result_bind rbind]. rewrite Hnone. reflexivity.
  - intros data chart error Hchart Herr Hfalsy.
    split; intros Hres; unfold fetch_data;
      rewrite bind_lift, (APIBarNormalizer.get_getitem_key _ _ _ _ Hchart);
      cbn [mbind result_bind rbind]; rewrite Herr, Hfalsy;
      rewrite bind_lift, Hchart; cbn [mbind result_bind rbind];
      rewrite Hres; reflexivity.
Qed.

(** X6: an empty timestamp array gives a series without bars (a
    [BarSeries], unlike a missing array), whatever the quote holds, even
    no column at all. *)
Theorem fetch_data_empty_timestamps data chart error results result
    indicators quote ohlcv symbol start end_ timeframe out :
  getitem_key data "chart" = Ok chart ->
  get chart "error" VNone = Ok error -> truthy error = false ->
  getitem_key chart "result" = Ok results ->
  getitem_index results 0 = Ok result ->
  getitem_key result "timestamp" = Ok (VList []) ->
  getitem_key result "indicators" = Ok indicators ->
  getitem_key indicators "quote" = Ok quote ->
  getitem_index quote 0 = Ok ohlcv ->
  fetch_data data symbol start end_ timeframe out
  = (Ok (Series {| bars := []; symbol := symbol; timeframe := timeframe |}),
     out).
Proof.
  intros Hchart Herr Hfalsy Hres Hres0 Hts Hind Hquote Hquote0.
  destruct (fetch_data_result data chart error results result symbol start
              end_ timeframe out Hchart Herr Hfalsy Hres Hres0)
    as (k & -> & ->).
  rewrite bind_lift, (APIBarNormalizer.contains_getitem_key _ _ _ Hts).
  cbn [negb]. rewrite bind_lift, Hts, bind_lift, Hind.
  cbn [mbind result_bind rbind]. rewrite Hquote.
  cbn [mbind result_bind rbind]. rewrite Hquote0.
  reflexivity.
Qed.

(** ** Quote arrays of unequal length *)

Section Ragged.
Variables (ohlcv : value) (tss os hs ls cs vs : list value).
Variable dts : list datetime.
Hypothesis Hopen : getitem_key ohlcv "open" = Ok (VList os).
Hypothesis Hhigh : getitem_key ohlcv "high" = Ok (VList hs).
Hypothesis Hlow : getitem_key ohlcv "low" = Ok (VList ls).
Hypothesis Hclose : getitem_key ohlcv "close" = Ok (VList cs).
Hypothesis Hvolume : getitem_key ohlcv "volume" = Ok (VList vs).
Hypothesis Hshort : (length os < length tss)%nat.
Hypothesis Lhs : (length os <= length hs)%nat.
Hypothesis Lls : (length os <= length ls)%nat.
Hypothesis Lcs : (length os <= length cs)%nat.
Hypothesis Lvs : (length os <= length vs)%nat.
Hypothesis Hdts : Forall2 (fun ts dt => fromtimestamp ts = Ok dt) tss dts.

(** From any position up to the end of the open array, the loop ends in
    [IndexError]. *)
Lemma fetch_data_loop_ragged : forall rest i bars,
  drop i tss = rest -> (i <= length os)%nat ->
  fetch_data_loop ohlcv (Z.of_nat i) rest bars = Raise IndexError.
Proof.
  induction rest as [|ts rest IH]; intros i bars Hdrop Hi.
  - apply (f_equal length) in Hdrop. rewrite length_drop in Hdrop.
    cbn [length] in Hdrop. lia.
  - assert (Hts : tss !! i = Some ts).
    { rewrite <- (Nat.add_0_r i), <- lookup_drop, Hdrop. reflexivity. }
    assert (Hrest : drop (S i) tss = rest).
    { replace (S i) with (i + 1)%nat by lia.
      rewrite <- drop_drop, Hdrop. reflexivity. }
    cbn [fetch_data_loop any_None].
    destruct (Nat.eq_dec i (length os)) as [->|Hne].
    + rewrite (quote_at_beyond _ _ _ _ Hopen) by lia. reflexivity.
    + rewrite (APIBarNormalizer.quote_at_nth _ _ _ _ Hopen),
        (APIBarNormalizer.quote_at_nth _ _ _ _ Hhigh),
        (APIBarNormalizer.quote_at_nth _ _ _ _ Hlow),
        (APIBarNormalizer.quote_at_nth _ _ _ _ Hclose) by lia.
      cbn [mbind result_bind rbind].
      replace (Z.of_nat i + 1) with (Z.of_nat (S i)) by lia.
      destruct (Forall2_lookup_l _ _ _ _ _ Hdts Hts) as (dt & _ & Hconv).
      destruct (is_None (nth i os VNone)); cbn [mbind result_bind rbind];
        [apply IH; [exact Hrest | lia]|].
      destruct (is_None (nth i hs VNone)); cbn [mbind result_bind rbind];
        [apply IH; [exact Hrest | lia]|].
      destruct (is_None (nth i ls VNone)); cbn [mbind result_bind rbind];
        [apply IH; [exact Hrest | lia]|].
      destruct (is_None (nth i cs VNone)); cbn [mbind result_bind rbind];
        [apply IH; [exact Hrest | lia]|].
      rewrite Hconv. cbn [mbind result_bind rbind].
      rewrite (APIBarNormalizer.quote_at_nth _ _ _ _ Hvolume) by lia.
      cbn [mbind result_bind rbind].
      apply IH; [exact Hrest | lia].
Qed.

End Ragged.

(** X7: when the open array is shorter than the timestamp array, the other
    arrays reaching at least as far, [fetch_data] raises [IndexError]: the
    bars made up to there are dropped, no shorter series is returned. *)
Theorem fetch_data_short_open_array data tss os hs ls cs vs dts
    symbol start end_ timeframe out :
  chart_document data tss os hs ls cs vs ->
  (length os < length tss)%nat ->
  (length os <= length hs)%nat -> (length os <= length ls)%nat ->
  (length os <= length cs)%nat -> (length os <= length vs)%nat ->
  Forall2 (fun ts dt => fromtimestamp ts = Ok dt) tss dts ->
  fetch_data data symbol start end_ timeframe out = (Raise IndexError, out).
Proof.
  intros (chart & error & results & result & indicators & quote & ohlcv
          & Hchart & Herr & Hfalsy & Hres & Hres0 & Hts & Hind & Hquote
          & Hquote0 & Hopen & Hhigh & Hlow & Hclose & Hvolume)
         Hshort Lhs Lls Lcs Lvs Hdts.
  destruct (fetch_data_result data chart error results result symbol start
              end_ timeframe out Hchart Herr Hfalsy Hres Hres0)
    as (k & -> & ->).
  rewrite bind_lift, (APIBarNormalizer.contains_getitem_key _ _ _ Hts).
  cbn [negb]. rewrite bind_lift, Hts, bind_lift, Hind.
  cbn [mbind result_bind rbind]. rewrite Hquote.
  cbn [mbind result_bind rbind]. rewrite Hquote0.
  rewrite bind_lift. cbn [iter mbind result_bind rbind].
  change 0 with (Z.of_nat 0).
  rewrite (fetch_data_loop_ragged ohlcv tss os hs ls cs vs dts Hopen Hhigh
             Hlow Hclose Hvolume Hshort Lhs Lls Lcs Lvs Hdts tss 0%nat []
             eq_refl) by lia.
  reflexivity.
Qed.

(** ** Every series that comes back *)




End Edges.

Ltac chart_shape :=
  unfold chart_document; do 7 eexists; repeat split; reflexivity.

(** A chart answer with its error set. *)
Lemma fetch_data_upstream_error_sample :
  fetch_data (H := Utc.host) error_document "NOPE" (midnight 2020 1 1)
             (midnight 2020 1 31) "1d" []
  = (Raise ValueError, []).
Proof.
  eapply (fetch_data_upstream_error (H := Utc.host) error_document);
    reflexivity.
Defined.

(** An empty result list. *)
Lemma fetch_data_without_result_sample :
  fetch_data (H := Utc.host)
    (VDict [("chart", VDict [("result", VList []); ("error", VNone)])]%string)
    "NVDA" (midnight 2020 1 1) (midnight 2020 1 31) "1d" []
  = (Raise IndexError, []).
Proof.
  eapply (proj2 (fetch_data_without_result (H := Utc.host) "NVDA"
                   (midnight 2020 1 1) (midnight 2020 1 31) "1d" []));
    reflexivity.
Defined.

(** No timestamps, no quote columns. *)
Lemma fetch_data_empty_timestamps_sample :
  fetch_data (H := Utc.host) empty_document "NVDA" (midnight 2020 1 1)
             (midnight 2020 1 31) "1d" []
  = (Ok (Series {| bars := []; symbol := "NVDA"; timeframe := "1d" |}), []).
Proof.
  eapply (fetch_data_empty_timestamps (H := Utc.host) empty_document);
    reflexivity.
Defined.

(** Scenario C with an open array of two items. *)
Lemma fetch_data_short_open_array_sample :
  fetch_data (H := Utc.host) ragged_document "NVDA" (midnight 2020 1 1)
             (midnight 2020 1 31) "1d" []
  = (Raise IndexError, []).
Proof.
  apply (fetch_data_short_open_array (H := Utc.host) ragged_document
           [VInt 1; VInt 2; VInt 3]
           [VInt 9; VInt 10] [VInt 11; VInt 12; VInt 13]
           [VInt 8; VInt 9; VInt 10] [VInt 10; VNone; VInt 12]
           [VInt 100; VInt 200; VNone]
           (map (fun z => match Utc.utc_fromtimestamp (VInt z) with
                          | Ok dt => dt
                          | Raise _ => epoch
                          end) [1; 2; 3]));
    try (cbn [length]; lia).
  - chart_shape.
  - repeat constructor.
Defined.


End NormalizerEdges.

(* ===================================================================== *)
(** * The cursor off the beaten track *)
(* ===================================================================== *)

Module CursorEdges.
Import YahooFetcher YahooFinanceData.

Section Edges.
Context `{Host}.

(** A call of [_load] on a feed whose [_bars] was never assigned. *)
Lemma load_unstarted (self : feed) :
  _bars self = None ->
  _load self
  = (Raise AttributeError,
     {| _df := _df self; _bars := _bars self; _idx := _idx self + 1;
        lines := lines self |}).
Proof.
  intros Hbars. unfold _load. rewrite bind_modify, bind_self.
  cbn [_bars _idx]. rewrite Hbars. reflexivity.
Qed.

(** X10: [__init__] assigns [_df], not [_bars]; as long as [start] has not
    run, every call of [_load] raises [AttributeError], stores nothing and
    still moves the index on by one. *)
Theorem loads_before_start : forall (n : nat) (self : feed),
  _bars self = None ->
  fst (loads n self) = repeat (Raise AttributeError) n
  /\ lines (snd (loads n self)) = lines self
  /\ _idx (snd (loads n self)) = _idx self + Z.of_nat n.
Proof.
  induction n as [|n IH]; intros self Hbars.
  - cbn [loads fst snd repeat]. repeat split. lia.
  - cbn [loads repeat]. rewrite (load_unstarted self Hbars).
    match goal with |- context [loads n ?st] =>
      destruct (IH st Hbars) as (IH1 & IH2 & IH3);
        destruct (loads n st) as [rs self2]
    end.
    cbn [fst snd _idx lines] in *. rewrite IH1.
    repeat split; [exact IH2 | lia].
Qed.

(** A call of [_load] on a feed that holds a frame without rows. *)
Lemma load_empty_frame (self : feed) df :
  _bars self = Some (Frame df) -> rows df = [] -> -1 <= _idx self ->
  _load self
  = (Ok false,
     {| _df := _df self; _bars := _bars self; _idx := _idx self + 1;
        lines := lines self |}).
Proof.
  intros Hbars Hrows Hidx. unfold _load. rewrite bind_modify, bind_self.
  cbn [_bars _idx]. rewrite Hbars. unfold len. rewrite Hrows. cbn [length].
  destruct (Z.leb_spec (Z.of_nat 0) (_idx self + 1)); [reflexivity | lia].
Qed.

Lemma loads_empty_frame df : forall (n : nat) (self : feed),
  _bars self = Some (Frame df) -> rows df = [] -> -1 <= _idx self ->
  fst (loads n self) = repeat (Ok false) n
  /\ lines (snd (loads n self)) = lines self.
Proof.
  induction n as [|n IH]; intros self Hbars Hrows Hidx.
  - cbn [loads fst snd repeat]. auto.
  - cbn [loads repeat]. rewrite (load_empty_frame self df Hbars Hrows Hidx).
    match goal with |- context [loads n ?st] =>
      destruct (IH st) as (IH1 & IH2);
        [exact Hbars | exact Hrows | cbn [_idx]; lia |];
        destruct (loads n st) as [rs self2]
    end.
    cbn [fst snd lines] in *. rewrite IH1. auto.
Qed.

(** X11: a feed whose [YahooFetcher] is answered with a document that has
    no ["timestamp"] key starts without error, and from then on every call
    of [_load] returns [False]: no bar, no exception, no line buffer
    written, however often it is called. *)
Theorem feed_without_timestamps data chart error results result
    p from_ to_ (self0 : feed) (n : nat) :
  getitem_key data "chart" = Ok chart ->
  get chart "error" VNone = Ok error -> truthy error = false ->
  getitem_key chart "result" = Ok results ->
  getitem_index results 0 = Ok result ->
  contains result "timestamp" = Ok false ->
  fetcher p = YahooFetcher_ data ->
  fromdate p = Some from_ -> todate p = Some to_ ->
  fst (start p self0) = Ok tt
  /\ fst (loads n (snd (start p self0))) = repeat (Ok false) n
  /\ lines (snd (loads n (snd (start p self0)))) = lines self0.
Proof.
  intros Hchart Herr Hfalsy Hres Hres0 Hts Hfetcher Hfrom Hto.
  unfold start. rewrite Hfrom, Hto, Hfetcher. unfold YahooFetcher_.
  rewrite (APIBarNormalizer.fetch_data_no_timestamp data chart error results
             result _ _ _ _ [] Hchart Herr Hfalsy Hres Hres0 Hts).
  cbn [fst snd]. split; [reflexivity|].
  match goal with |- context [loads n ?st] =>
    destruct (loads_empty_frame _ n st eq_refl eq_refl) as (H1 & H2);
      [cbn [_idx]; lia|]
  end.
  split; [exact H1 | exact H2].
Qed.

(** ** What a call stores *)

Lemma as_double_exn v e :
  as_double v = Raise e -> e = TypeError \/ e = OverflowError.
Proof.
  destruct v; cbn [as_double]; try (intros [= <-]; left; reflexivity);
    try discriminate.
  destruct (is_infinity _); [intros [= <-]; right; reflexivity | discriminate].
Qed.

(** Items one of which is not a number: the first such item ends the
    stores with its exception. *)
Lemma setlines_refused items : forall self : feed,
  Exists (fun kv => is_Ok (as_double (snd kv)) = false) items ->
  exists e, fst (setlines items self) = Raise e
            /\ (e = TypeError \/ e = OverflowError).
Proof.
  induction items as [|[key v] items IH]; intros self Hex.
  - inversion Hex.
  - cbn [setlines]. destruct (as_double v) as [x|e] eqn:Ev.
    + rewrite (SequentialFeedCursor.bind_setline_Ok _ _ _ _ _ Ev).
      apply IH. inversion Hex as [kv l Hkv|kv l Hl]; subst; [|exact Hl].
      cbn [snd] in Hkv. rewrite Ev in Hkv. discriminate Hkv.
    + rewrite (SequentialFeedCursor.bind_setline_Raise _ _ _ _ _ Ev).
      exists e. split; [reflexivity | exact (as_double_exn _ _ Ev)].
Qed.

Lemma to_lines_refused bar :
  real_valued bar = false ->
  Exists (fun kv => is_Ok (as_double (snd kv)) = false) (to_lines bar).
Proof.
  unfold real_valued, to_lines. cbn [forallb]. intros Hbar.
  apply Exists_cons_tl.
  destruct (is_Ok (as_double (open bar))) eqn:Eo;
    [|apply Exists_cons_hd; exact Eo]. apply Exists_cons_tl.
  destruct (is_Ok (as_double (high bar))) eqn:Eh;
    [|apply Exists_cons_hd; exact Eh]. apply Exists_cons_tl.
  destruct (is_Ok (as_double (low bar))) eqn:El;
    [|apply Exists_cons_hd; exact El]. apply Exists_cons_tl.
  destruct (is_Ok (as_double (close bar))) eqn:Ec;
    [|apply Exists_cons_hd; exact Ec]. apply Exists_cons_tl.
  destruct (is_Ok (as_double (volume bar))) eqn:Ev;
    [discriminate Hbar | apply Exists_cons_hd; exact Ev].
Qed.

(** The statements of [_load] up to the stores, for a bar ahead. *)
Lemma load_ahead (self : feed) s (k : nat) bar :
  _bars self = Some (Series s) ->
  _idx self = Z.of_nat k - 1 ->
  bars s !! k = Some bar ->
  _load self
  = (_ ← setlines (to_lines bar); mret true)
      {| _df := _df self; _bars := _bars self; _idx := Z.of_nat k;
         lines := lines self |}.
Proof.
  intros Hbars Hidx Hbar.
  pose proof (lookup_lt_Some _ _ _ Hbar) as Hk.
  unfold _load. rewrite bind_modify, bind_self. cbn [_bars _idx].
  rewrite Hbars, Hidx. replace (Z.of_nat k - 1 + 1) with (Z.of_nat k) by lia.
  unfold len, __len__.
  destruct (Z.leb_spec (Z.of_nat (length (bars s))) (Z.of_nat k)); [lia|].
  rewrite bind_lift, (list_getitem_nth _ _ bar Hk).
  rewrite (nth_lookup_Some _ _ _ _ Hbar). reflexivity.
Qed.

(** X12: a call of [_load] that has a bar ahead stores the bar in the line
    buffers as doubles.  When the open, high, low, close and volume of the
    bar are numbers, the call returns [True] and the buffers hold the day
    number of the timestamp, the five numbers as doubles (an integer as the
    float it converts to) and an open interest of 0.0, every other buffer
    keeping what it held.  When the open is not a number the call raises
    what the buffer raises, the day number alone being stored; and a bar
    with any field that is not a number makes the call raise [TypeError] or
    [OverflowError].  A call past the last bar returns [False] and writes
    nothing. *)
Theorem load_stores_bar (self : feed) s :
  _bars self = Some (Series s) ->
  (forall (k : nat) bar,
      _idx self = Z.of_nat k - 1 -> bars s !! k = Some bar ->
      (forall o h l c v,
          as_double (open bar) = Ok o -> as_double (high bar) = Ok h ->
          as_double (low bar) = Ok l -> as_double (close bar) = Ok c ->
          as_double (volume bar) = Ok v ->
          fst (_load self) = Ok true
          /\ lines (snd (_load self)) !! "datetime"%string
             = Some (VFloat (date2num (timestamp bar)))
          /\ lines (snd (_load self)) !! "open"%string = Some (VFloat o)
          /\ lines (snd (_load self)) !! "high"%string = Some (VFloat h)
          /\ lines (snd (_load self)) !! "low"%string = Some (VFloat l)
          /\ lines (snd (_load self)) !! "close"%string = Some (VFloat c)
          /\ lines (snd (_load self)) !! "volume"%string = Some (VFloat v)
          /\ lines (snd (_load self)) !! "openinterest"%string
             = Some (VFloat 0)
          /\ (forall key, ~ In key line_keys ->
                lines (snd (_load self)) !! key = lines self !! key))
      /\ (forall e, as_double (open bar) = Raise e ->
            fst (_load self) = Raise e
            /\ lines (snd (_load self))
               = <["datetime"%string := VFloat (date2num (timestamp bar))]>
                   (lines self))
      /\ (real_valued bar = false ->
          exists e, fst (_load self) = Raise e
                    /\ (e = TypeError \/ e = OverflowError)))
  /\ (Z.of_nat (length (bars s)) - 1 <= _idx self ->
      fst (_load self) = Ok false /\ lines (snd (_load self)) = lines self).
Proof.
  intros Hbars. split.
  - intros k bar Hidx Hbar. split; [|split].
    + intros o h l c v Ho Hh Hl Hc Hv.
      assert (Hreal : real_valued bar = true).
      { unfold real_valued. cbn [forallb]. rewrite Ho, Hh, Hl, Hc, Hv.
        reflexivity. }
      rewrite (SequentialFeedCursor.load_bar self s k bar Hbars Hidx Hbar
                 Hreal).
      cbn [fst snd lines]. unfold stored, doubles, to_lines.
      cbn [map fold_left fst snd as_double]. rewrite Ho, Hh, Hl, Hc, Hv.
      split; [reflexivity|].
      repeat split;
        try (repeat (rewrite lookup_insert_ne by discriminate);
             apply lookup_insert_eq).
      intros key Hkey. unfold line_keys in Hkey. cbn [In] in Hkey.
      repeat (rewrite lookup_insert_ne by (intros <-; tauto)).
      reflexivity.
    + intros e He. rewrite (load_ahead self s k bar Hbars Hidx Hbar).
      assert (Hset : setlines (to_lines bar)
                       {| _df := _df self; _bars := _bars self;
                          _idx := Z.of_nat k; lines := lines self |}
                     = (Raise e,
                        {| _df := _df self; _bars := _bars self;
                           _idx := Z.of_nat k;
                           lines := <["datetime"%string
                                      := VFloat (date2num (timestamp bar))]>
                                      (lines self) |})).
      { unfold to_lines. cbn [setlines].
        rewrite (SequentialFeedCursor.bind_setline_Ok "datetime"
                   (VFloat (date2num (timestamp bar)))
                   (date2num (timestamp bar)) _ _ eq_refl).
        rewrite (SequentialFeedCursor.bind_setline_Raise _ _ _ _ _ He).
        reflexivity. }
      unfold mbind, M_bind. rewrite Hset. split; reflexivity.
    + intros Hreal. rewrite (load_ahead self s k bar Hbars Hidx Hbar).
      destruct (setlines_refused (to_lines bar)
                  {| _df := _df self; _bars := _bars self;
                     _idx := Z.of_nat k; lines := lines self |}
                  (to_lines_refused bar Hreal)) as (e & He & Hexn).
      unfold mbind, M_bind.
      destruct (setlines (to_lines bar) _) as [r st'].
      cbn [fst] in He. subst r. exists e. split; [reflexivity | exact Hexn].
  - intros Hidx.
    rewrite (SequentialFeedCursor.load_exhausted self s Hbars Hidx).
    split; reflexivity.
Qed.

End Edges.

(** Three calls on a fresh feed. *)
Lemma loads_before_start_sample :
  fst (loads (H := Utc.host) 3 __init__)
  = [Raise AttributeError; Raise AttributeError; Raise AttributeError]
  /\ _idx (snd (loads (H := Utc.host) 3 __init__)) = 2.
Proof.
  destruct (loads_before_start (H := Utc.host) 3 __init__ eq_refl)
    as (Hrs & _ & Hidx).
  split; [exact Hrs | exact Hidx].
Defined.

(** A feed answered with the document of a range without trading. *)
Lemma feed_without_timestamps_sample :
  let p := {| fetcher := YahooFetcher_ (H := Utc.host) no_data_document;
              fromdate := Some (midnight 2020 1 4);
              todate := Some (midnight 2020 1 5);
              dataname := "NVDA" |} in
  fst (start p __init__) = Ok tt
  /\ fst (loads (H := Utc.host) 4 (snd (start p __init__)))
     = [Ok false; Ok false; Ok false; Ok false]
  /\ lines (snd (loads (H := Utc.host) 4 (snd (start p __init__)))) = ∅.
Proof.
  cbv zeta.
  eapply (feed_without_timestamps (H := Utc.host) no_data_document);
    reflexivity.
Defined.

(** The first call on a feed started on scenario C: the close of 10, an
    integer in the document, is stored as the float 10.0. *)
Lemma load_stores_bar_sample :
  fst (_load (H := Utc.host) (snd (start scenario_C_params __init__)))
  = Ok true
  /\ lines (snd (_load (H := Utc.host)
                   (snd (start scenario_C_params __init__))))
     !! "close"%string = Some (VFloat 10)
  /\ lines (snd (_load (H := Utc.host)
                   (snd (start scenario_C_params __init__))))
     !! "openinterest"%string = Some (VFloat 0).
Proof.
  destruct (load_stores_bar (H := Utc.host)
              (snd (start scenario_C_params __init__)) scenario_C_series)
    as [Hbar _]; [vm_compute; reflexivity|].
  destruct (Hbar 0%nat _ eq_refl eq_refl) as [Hnum _].
  destruct (Hnum 9 11 8 10 100 eq_refl eq_refl eq_refl eq_refl eq_refl)%float
    as (Hr & _ & _ & _ & _ & Hc & _ & Hoi & _).
  split; [exact Hr|]. split; [exact Hc | exact Hoi].
Defined.

(** A feed started on a document whose open is the text ["9"]: the first
    call raises [TypeError], after the day number was stored. *)
Example load_string_price :
  let p := {| fetcher := YahooFetcher_ (H := Utc.host) string_price_document;
              fromdate := Some (midnight 1970 1 1);
              todate := Some (midnight 1970 1 2);
              dataname := "NVDA" |} in
  let run := _load (H := Utc.host) (snd (start p __init__)) in
  fst (start p __init__) = Ok tt
  /\ fst run = Raise TypeError
  /\ _idx (snd run) = 0
  /\ lines (snd run) !! "open"%string = None.
Proof. cbv zeta. repeat split; vm_compute; reflexivity. Qed.

End CursorEdges.

(* ===================================================================== *)
(** * What a line is read through *)
(* ===================================================================== *)

Module ParserInvariants.
Import YahooFinanceCSVData.

Section Invariants.
Context `{Host}.

(** The loop, one turn unrolled. *)
Lemma scan_unfold src linetokens :
  _loadline_scan src linetokens
  = if nullseen linetokens then
      match src with
      | [] => (None, [])
      | next :: rest =>
          match next with
          | [] => (None, rest)
          | _ :: _ => _loadline_scan rest next
          end
      end
    else (Some linetokens, src).
Proof. destruct src; reflexivity. Qed.

(** [_loadline] reads a line through its null check, its date, its five
    prices and its volume only. *)
Lemma loadline_same_fields p l1 l2 self :
  nullseen l1 = nullseen l2 ->
  (dttxt ← list_getitem l1 0; date_of_text dttxt)
  = (dttxt ← list_getitem l2 0; date_of_text dttxt) ->
  float_at l1 1 = float_at l2 1 -> float_at l1 2 = float_at l2 2 ->
  float_at l1 3 = float_at l2 3 -> float_at l1 4 = float_at l2 4 ->
  float_at l1 5 = float_at l2 5 ->
  match float_at l1 6 with Ok v => v | Raise _ => 0%float end
  = match float_at l2 6 with Ok v => v | Raise _ => 0%float end ->
  _loadline p l1 self = _loadline p l2 self.
Proof.
  intros Hnull Hdate H1 H2 H3 H4 H5 H6.
  unfold _loadline. rewrite (scan_unfold _ l1), (scan_unfold _ l2), Hnull.
  destruct (nullseen l2); [reflexivity|].
  unfold _loadline_fields. rewrite H1, H2, H3, H4, H5, H6.
  rewrite !bind_lift.
  destruct (list_getitem l1 0) as [d1|e1], (list_getitem l2 0) as [d2|e2];
    cbn [mbind result_bind rbind] in Hdate.
  - rewrite !bind_lift, Hdate. reflexivity.
  - rewrite !bind_lift, Hdate. reflexivity.
  - rewrite !bind_lift, <- Hdate. reflexivity.
  - congruence.
Qed.

Lemma nullseen_cons7 d o h l c a v more :
  nullseen (d :: o :: h :: l :: c :: a :: v :: more)
  = nullseen [d; o; h; l; c; a; v]
    || existsb (fun tok => (tok =? "null")%string) more.
Proof.
  unfold nullseen. cbn [tail existsb]. rewrite !orb_false_r, !orb_assoc.
  reflexivity.
Qed.

Lemma float_at_after_date d1 d2 toks (i : Z) :
  0 < i -> float_at (d1 :: toks) i = float_at (d2 :: toks) i.
Proof.
  intros Hi. unfold float_at, list_getitem.
  assert (E0 : (i <? 0) = false) by (apply Z.ltb_ge; lia).
  rewrite E0. cbv zeta. rewrite E0.
  destruct (Z.to_nat i) as [|k] eqn:Ek; [lia|]. reflexivity.
Qed.

(** X13: a volume token that is not a number (and not the null marker) is
    read as 0: the line is loaded exactly as if the token were ["0"]; and
    so is a line that stops after the adjusted close, the [except] clause
    catching the [IndexError] as well. *)
Theorem loadline_volume_default p d o h l c a self :
  _loadline p [d; o; h; l; c; a] self
  = _loadline p [d; o; h; l; c; a; "0"%string] self
  /\ forall v more e,
       v <> "null"%string -> float_of_string v = Raise e ->
       _loadline p (d :: o :: h :: l :: c :: a :: v :: more) self
       = _loadline p (d :: o :: h :: l :: c :: a :: "0"%string :: more) self.
Proof.
  assert (Hzero : float_of_string "0" = Ok 0%float) by (vm_compute; reflexivity).
  split.
  - destruct (CSVAdjustmentParser.float_at_line d o h l c a [])
      as (G0 & G1 & G2 & G3 & G4 & G5 & G6).
    destruct (CSVAdjustmentParser.float_at_line d o h l c a ["0"%string])
      as (K0 & K1 & K2 & K3 & K4 & K5 & K6).
    apply loadline_same_fields;
      [ | rewrite G0, K0; reflexivity | rewrite G1, K1; reflexivity
        | rewrite G2, K2; reflexivity | rewrite G3, K3; reflexivity
        | rewrite G4, K4; reflexivity | rewrite G5, K5; reflexivity | ].
    + unfold nullseen. cbn [tail existsb].
      change ("0" =? "null")%string with false.
      rewrite !orb_false_r. reflexivity.
    + rewrite G6, K6.
      change (float_at ["0"%string] 0) with (float_of_string "0").
      rewrite Hzero. reflexivity.
  - intros v more e Hv Hparse.
    destruct (CSVAdjustmentParser.float_at_line d o h l c a (v :: more))
      as (G0 & G1 & G2 & G3 & G4 & G5 & G6).
    destruct (CSVAdjustmentParser.float_at_line d o h l c a
                ("0"%string :: more)) as (K0 & K1 & K2 & K3 & K4 & K5 & K6).
    apply loadline_same_fields;
      [ | rewrite G0, K0; reflexivity | rewrite G1, K1; reflexivity
        | rewrite G2, K2; reflexivity | rewrite G3, K3; reflexivity
        | rewrite G4, K4; reflexivity | rewrite G5, K5; reflexivity | ].
    + rewrite (nullseen_cons7 d o h l c a v more),
        (nullseen_cons7 d o h l c a "0" more). f_equal.
      unfold nullseen. cbn [tail existsb]. do 5 f_equal.
      apply String.eqb_neq in Hv. rewrite Hv. reflexivity.
    + rewrite G6, K6.
      change (float_at (v :: more) 0) with (float_of_string v).
      change (float_at ("0"%string :: more) 0) with (float_of_string "0").
      rewrite Hparse, Hzero. reflexivity.
Qed.

(** X18: tokens after the volume are not read, as long as none of them is
    the null marker: the line is loaded as its first seven tokens are. *)
Theorem loadline_extra_tokens p d o h l c a v more self :
  ~ In "null"%string more ->
  _loadline p (d :: o :: h :: l :: c :: a :: v :: more) self
  = _loadline p [d; o; h; l; c; a; v] self.
Proof.
  intros Hmore. apply loadline_same_fields; try reflexivity.
  rewrite nullseen_cons7.
  assert (E : existsb (fun tok => (tok =? "null")%string) more = false).
  { apply not_true_is_false. intros E. apply Hmore.
    apply existsb_exists in E as (tok & Hin & Heq).
    apply String.eqb_eq in Heq. now subst. }
  rewrite E. apply orb_false_r.
Qed.

(** X17: the date is read at fixed positions of its token: the characters
    at positions 4 and 7 and everything from position 10 on are never
    looked at, so a line is loaded as if these were two hyphens and
    nothing. *)
Theorem loadline_date_positions p
    (y1 y2 y3 y4 s1 m1 m2 s2 d1 d2 : ascii) (rest : string) toks self :
  _loadline p
    (String y1 (String y2 (String y3 (String y4 (String s1
       (String m1 (String m2 (String s2 (String d1 (String d2 rest)))))))))
     :: toks) self
  = _loadline p
      (String y1 (String y2 (String y3 (String y4 (String "-"%char
         (String m1 (String m2 (String "-"%char
            (String d1 (String d2 EmptyString)))))))))
       :: toks) self.
Proof.
  apply loadline_same_fields;
    try (apply float_at_after_date; lia); try reflexivity.
  - change (list_getitem (?d :: toks) 0) with (Ok d).
    cbn [mbind result_bind rbind]. unfold date_of_text, slice.
    cbn [Nat.sub String.substring]. destruct rest; reflexivity.
Qed.

(** X15: without [adjclose], [adjvolume] changes nothing: the line is
    loaded the same way whether it is set or not. *)
Theorem loadline_adjvolume_needs_adjclose p b linetokens self :
  adjclose p = false ->
  _loadline (with_adjvolume b p) linetokens self = _loadline p linetokens self.
Proof.
  intros Hadj. unfold _loadline, _loadline_fields.
  cbn [with_adjvolume adjclose adjvolume round decimals roundvolume swapcloses
       sessionend].
  rewrite Hadj. reflexivity.
Qed.

(** ** What a call leaves behind *)

(** The lines the loop has passed over lie before those it leaves. *)
Lemma scan_suffix : forall src linetokens,
  exists consumed,
    src = consumed ++ snd (_loadline_scan src linetokens).
Proof.
  induction src as [|next rest IH]; intros linetokens.
  - exists []. cbn [_loadline_scan]. destruct (nullseen linetokens); reflexivity.
  - rewrite scan_unfold. destruct (nullseen linetokens).
    + destruct next as [|tok toks].
      * exists [[]]. reflexivity.
      * destruct (IH (tok :: toks)) as [consumed Hc].
        exists ((tok :: toks) :: consumed). cbn [app]. f_equal. exact Hc.
    + exists []. reflexivity.
Qed.

(** Run the statements after the loop on any line, each evaluation being
    split into its value and its exception. *)
Ltac run_fields :=
  repeat first
    [ rewrite bind_lift
    | rewrite CSVAdjustmentParser.bind_setline
    | progress cbn [mret M_ret fst snd f lines]
    | match goal with
      | |- context [match ?r with Ok _ => _ | Raise _ => _ end] => destruct r
      | |- context [let '(_, _) := ?x in _] => destruct x
      end ].

(** After the loop, the source is not touched again; the statements end
    with [True] or with an exception, and in the second case have written
    no price, volume or adjusted close. *)
Lemma fields_outcome p linetokens (st : feed) key :
  priced key ->
  f (snd (_loadline_fields p linetokens st)) = f st
  /\ (fst (_loadline_fields p linetokens st) = Ok true
      \/ (exists e, fst (_loadline_fields p linetokens st) = Raise e)
         /\ lines (snd (_loadline_fields p linetokens st)) !! key
            = lines st !! key).
Proof.
  intros Hkey.
  assert (Hd : "datetime"%string <> key).
  { intros <-. unfold priced in Hkey. cbn [In] in Hkey.
    intuition discriminate. }
  assert (Ho : "openinterest"%string <> key).
  { intros <-. unfold priced in Hkey. cbn [In] in Hkey.
    intuition discriminate. }
  unfold _loadline_fields. run_fields;
    (split; [reflexivity|]);
    first [ left; reflexivity
          | right; split; [eexists; reflexivity|];
            rewrite ?lookup_insert_ne by assumption; reflexivity ].
Qed.

(** X14: [_loadline] only takes lines off the front of the source: what is
    left afterwards is a tail of what was there, whatever the outcome, and
    the whole of it when the line handed in has no null token. *)
Theorem loadline_consumes_prefix p linetokens self :
  (exists consumed,
      f self = consumed ++ f (snd (_loadline p linetokens self)))
  /\ (nullseen linetokens = false ->
      f (snd (_loadline p linetokens self)) = f self).
Proof.
  assert (Hkey : priced "open") by (left; reflexivity).
  split.
  - destruct (scan_suffix (f self) linetokens) as [consumed Hc].
    exists consumed. unfold _loadline.
    destruct (_loadline_scan (f self) linetokens) as [[next|] rest];
      cbn [snd] in Hc.
    + rewrite (proj1 (fields_outcome p next _ _ Hkey)). exact Hc.
    + exact Hc.
  - intros Hnull. unfold _loadline.
    rewrite (CSVAdjustmentParser.scan_no_null _ _ Hnull).
    rewrite (proj1 (fields_outcome p linetokens _ _ Hkey)). reflexivity.
Qed.

(** X16: a call that does not return [True] leaves no part of a bar: the
    open, high, low, close, volume and adjclose buffers hold what they held
    before.  When it returns [False], no buffer at all was written. *)
Theorem loadline_failure_keeps_prices p linetokens self :
  (fst (_loadline p linetokens self) <> Ok true ->
   forall key, priced key ->
     lines (snd (_loadline p linetokens self)) !! key = lines self !! key)
  /\ (fst (_loadline p linetokens self) = Ok false ->
      lines (snd (_loadline p linetokens self)) = lines self).
Proof.
  unfold _loadline.
  destruct (_loadline_scan (f self) linetokens) as [[next|] rest].
  - split.
    + intros Hfail key Hkey.
      destruct (fields_outcome p next {| f := rest; lines := lines self |}
                  key Hkey) as (_ & [Hok | (_ & Hsame)]).
      * contradiction.
      * exact Hsame.
    + intros Hfalse.
      destruct (fields_outcome p next {| f := rest; lines := lines self |}
                  "open"%string) as (_ & [Hok | ((e & He) & _)]).
      * left. reflexivity.
      * congruence.
      * congruence.
  - split; reflexivity.
Qed.

Lemma fields_loaded p linetokens (st : feed) key :
  In key ["datetime"; "open"; "high"; "low"; "close"; "volume";
          "openinterest"; "adjclose"]%string ->
  fst (_loadline_fields p linetokens st) = Ok true ->
  (exists x, lines (snd (_loadline_fields p linetokens st)) !! key
             = Some (VFloat x))
  /\ lines (snd (_loadline_fields p linetokens st)) !! "openinterest"%string
     = Some (VFloat 0).
Proof.
  intros Hkey. unfold _loadline_fields. run_fields;
    intros Hok; try discriminate Hok; cbn [In] in Hkey;
    (split;
     [ repeat (destruct Hkey as [<- | Hkey]); try contradiction;
       repeat (rewrite lookup_insert_ne by discriminate);
       rewrite lookup_insert_eq; eexists; reflexivity
     | repeat (rewrite lookup_insert_ne by discriminate);
       apply lookup_insert_eq ]).
Qed.

(** X20: when [_loadline] returns [True], each of the eight line buffers
    datetime, open, high, low, close, volume, openinterest and adjclose
    holds a float, and the open interest is 0.0. *)
Theorem loadline_success_fills_lines p linetokens self key :
  In key ["datetime"; "open"; "high"; "low"; "close"; "volume";
          "openinterest"; "adjclose"]%string ->
  fst (_loadline p linetokens self) = Ok true ->
  (exists x, lines (snd (_loadline p linetokens self)) !! key
             = Some (VFloat x))
  /\ lines (snd (_loadline p linetokens self)) !! "openinterest"%string
     = Some (VFloat 0).
Proof.
  intros Hkey. unfold _loadline.
  destruct (_loadline_scan (f self) linetokens) as [[next|] rest].
  - apply fields_loaded, Hkey.
  - discriminate.
Qed.

End Invariants.

(** A volume of ["n/a"]. *)
Lemma loadline_volume_default_sample :
  _loadline (H := Utc.host) default_params
    ["2020-01-02"; "100"; "105"; "95"; "102"; "51"; "n/a"]%string
    {| f := []; lines := ∅ |}
  = _loadline (H := Utc.host) default_params
      ["2020-01-02"; "100"; "105"; "95"; "102"; "51"; "0"]%string
      {| f := []; lines := ∅ |}.
Proof.
  apply (proj2 (loadline_volume_default (H := Utc.host) default_params
                  "2020-01-02" "100" "105" "95" "102" "51"
                  {| f := []; lines := ∅ |})
               "n/a"%string [] ValueError).
  - discriminate.
  - vm_compute; reflexivity.
Defined.

(** Two more columns after the volume. *)
Lemma loadline_extra_tokens_sample :
  _loadline (H := Utc.host) default_params
    ["2020-01-02"; "100"; "105"; "95"; "102"; "51"; "2000000"; "0.5"; "note"]%string
    {| f := []; lines := ∅ |}
  = _loadline (H := Utc.host) default_params
      ["2020-01-02"; "100"; "105"; "95"; "102"; "51"; "2000000"]%string
      {| f := []; lines := ∅ |}.
Proof.
  apply (loadline_extra_tokens (H := Utc.host) default_params
           "2020-01-02" "100" "105" "95" "102" "51" "2000000"
           ["0.5"; "note"]%string {| f := []; lines := ∅ |}).
  simpl. intuition discriminate.
Defined.

(** Scenario B's line with [adjclose] off. *)
Lemma loadline_adjvolume_needs_adjclose_sample :
  let p := {| reverse := false; adjclose := false; adjvolume := false;
              round := true; decimals := PInt 2; roundvolume := PBool false;
              swapcloses := false; sessionend := sessionend default_params |} in
  _loadline (H := Utc.host) (with_adjvolume true p)
    ["2020-01-02"; "100"; "105"; "95"; "102"; "51"; "2000000"]%string
    {| f := []; lines := ∅ |}
  = _loadline (H := Utc.host) p
      ["2020-01-02"; "100"; "105"; "95"; "102"; "51"; "2000000"]%string
      {| f := []; lines := ∅ |}.
Proof.
  cbv zeta.
  apply (loadline_adjvolume_needs_adjclose (H := Utc.host)).
  reflexivity.
Defined.

(** A null line handed in, a null line and a good line in the source, and
    one line after them: the first two are taken, the last one is left. *)
Lemma loadline_consumes_prefix_sample :
  exists consumed,
    [ ["2020-01-02"; "100"; "105"; "95"; "null"; "51"; "7"];
      ["2020-01-03"; "100"; "105"; "95"; "102"; "51"; "2000000"];
      ["2020-01-06"; "101"; "106"; "96"; "103"; "51"; "2000000"] ]%string
    = consumed
      ++ f (snd (_loadline (H := Utc.host) default_params
                   ["2020-01-01"; "null"; "0"; "0"; "0"; "0"; "0"]%string
                   {| f := [ ["2020-01-02"; "100"; "105"; "95"; "null"; "51"; "7"];
                             ["2020-01-03"; "100"; "105"; "95"; "102"; "51"; "2000000"];
                             ["2020-01-06"; "101"; "106"; "96"; "103"; "51"; "2000000"] ]%string;
                      lines := ∅ |})).
Proof.
  exact (proj1 (loadline_consumes_prefix (H := Utc.host) default_params
                  ["2020-01-01"; "null"; "0"; "0"; "0"; "0"; "0"]%string
                  {| f := [ ["2020-01-02"; "100"; "105"; "95"; "null"; "51"; "7"];
                            ["2020-01-03"; "100"; "105"; "95"; "102"; "51"; "2000000"];
                            ["2020-01-06"; "101"; "106"; "96"; "103"; "51"; "2000000"] ]%string;
                     lines := ∅ |})).
Defined.

(** A line with a zero adjusted close, read after a bar that closed at 7:
    the close buffer still holds 7. *)
Lemma loadline_failure_keeps_prices_sample :
  lines (snd (_loadline (H := Utc.host) default_params
                ["2020-01-02"; "100"; "105"; "95"; "102"; "0"; "1000000"]%string
                {| f := []; lines := {[ "close"%string := VFloat 7 ]} |}))
  !! "close"%string
  = Some (VFloat 7).
Proof.
  rewrite (proj1 (loadline_failure_keeps_prices (H := Utc.host) default_params
                    ["2020-01-02"; "100"; "105"; "95"; "102"; "0"; "1000000"]%string
                    {| f := []; lines := {[ "close"%string := VFloat 7 ]} |})).
  - reflexivity.
  - vm_compute. discriminate.
  - unfold priced. simpl. tauto.
Defined.

(** Scenario B's line. *)
Lemma loadline_success_fills_lines_sample :
  (exists x,
      lines (snd (_loadline (H := Utc.host) default_params
                    ["2020-01-02"; "100"; "105"; "95"; "102"; "51"; "2000000"]%string
                    {| f := []; lines := ∅ |}))
      !! "adjclose"%string = Some (VFloat x))
  /\ lines (snd (_loadline (H := Utc.host) default_params
                   ["2020-01-02"; "100"; "105"; "95"; "102"; "51"; "2000000"]%string
                   {| f := []; lines := ∅ |}))
     !! "openinterest"%string = Some (VFloat 0).
Proof.
  apply (loadline_success_fills_lines (H := Utc.host) default_params
           ["2020-01-02"; "100"; "105"; "95"; "102"; "51"; "2000000"]%string
           {| f := []; lines := ∅ |} "adjclose"%string).
  - simpl. tauto.
  - vm_compute; reflexivity.
Defined.

End ParserInvariants.

(* ===================================================================== *)
(** * Starting the feed *)
(* ===================================================================== *)

Module FeedStart.
Import YahooFetcher YahooFinanceData.

(** X19: [start] raises [ValueError] when [fromdate] or [todate] is
    missing, and passes on what the fetcher raises; either way the feed
    keeps its series, its position and its line buffers.  When the fetcher
    answers, the feed holds the new series at index -1, its line buffers
    as they were. *)
Theorem start_outcomes p (self : feed) :
  (fromdate p = None \/ todate p = None ->
   start p self = (Raise ValueError, self))
  /\ (forall from_ to_,
        fromdate p = Some from_ -> todate p = Some to_ ->
        match fetcher p (dataname p) from_ to_ "1d" with
        | Raise e => start p self = (Raise e, self)
        | Ok series =>
            fst (start p self) = Ok tt
            /\ _bars (snd (start p self)) = Some series
            /\ _idx (snd (start p self)) = -1
            /\ lines (snd (start p self)) = lines self
        end).
Proof.
  unfold start. split.
  - intros [Hnone | Hnone]; rewrite Hnone;
      [|destruct (fromdate p)]; reflexivity.
  - intros from_ to_ -> ->.
    destruct (fetcher p (dataname p) from_ to_ "1d"); [|reflexivity].
    repeat split.
Qed.

(** A feed whose fetcher is answered with an error document, started after
    it was started on scenario C and had loaded a bar. *)
Lemma start_outcomes_sample :
  let p := {| fetcher := YahooFetcher_ (H := Utc.host) error_document;
              fromdate := Some (midnight 2020 1 4);
              todate := Some (midnight 2020 1 5);
              dataname := "NOPE" |} in
  let self := snd (loads (H := Utc.host) 1
                     (snd (start scenario_C_params __init__))) in
  start p self = (Raise ValueError, self).
Proof.
  cbv zeta.
  exact (proj2 (start_outcomes
                  {| fetcher := YahooFetcher_ (H := Utc.host) error_document;
                     fromdate := Some (midnight 2020 1 4);
                     todate := Some (midnight 2020 1 5);
                     dataname := "NOPE" |}
                  (snd (loads (H := Utc.host) 1
                          (snd (start scenario_C_params __init__)))))
               (midnight 2020 1 4) (midnight 2020 1 5) eq_refl eq_refl).
Defined.

End FeedStart.
